(** * hexfetch-ui: live-data synchronisation core

    A shallow embedding of the second (current) program text of
    [src/main.go]: the history refresh [updateLocalHEXJSON], the
    configuration file and [ConfigManager], and the two ticker goroutines
    (the fetcher started by [main] and the Live Data tab refresher).

    Conventions.
    - Go [int], [int64] and [time.Duration] are 64-bit; values are kept in
      [Z] and the one place where arithmetic can leave the range (the
      multiplication by [time.Minute]) has its wrap-around written out.
    - A Go [error] is represented by its message; [option error] is a
      possibly-nil error.
    - A file is represented by what [os.Open] followed by
      [json.Decoder.Decode] makes of it.
    - A [chan struct{}] of capacity one is a [bool]: [true] when the slot
      is occupied. *)

From Stdlib Require Import ZArith String Ascii Sorted DecimalString.
From Stdlib Require Import Floats.PrimFloat.
From stdpp Require Import base option list sorting.

Local Open Scope Z_scope.

(** ** Data structures (main.go, lines 668-699) *)

Definition float64 : Set := PrimFloat.float.
Definition error : Set := string.
Bind Scope string_scope with error.

Record HEXJSONEntry : Set := {
  CurrentDay : Z;
  TshareRateHEX : float64;
  DailyPayoutHEX : float64;
  PricePulseX : float64
}.

Definition HEXJSON : Set := list HEXJSONEntry.

Record LiveData : Set := {
  PricePulsechain : float64;
  TsharePricePulsechain : float64;
  TshareRateHEXPulsechain : float64;
  PenaltiesHEXPulsechain : float64;
  PayoutPerTsharePulsechain : float64;
  Beat : Z
}.

Record Config : Set := { LiveDataFrequency : Z }.

Definition defaultLiveDataFrequency : Z := 15.

(** The zero values [LiveData{}] and [Config{}]. *)
Definition zeroLiveData : LiveData :=
  {| PricePulsechain := 0%float; TsharePricePulsechain := 0%float;
     TshareRateHEXPulsechain := 0%float; PenaltiesHEXPulsechain := 0%float;
     PayoutPerTsharePulsechain := 0%float; Beat := 0 |}.
Definition zeroConfig : Config := {| LiveDataFrequency := 0 |}.

(** ** The world outside the process: two files and the history endpoint *)

Inductive File (A : Type) : Type :=
| Missing                  (* os.Open fails and os.IsNotExist(err) holds *)
| Unreadable (e : error)   (* os.Open fails with another error *)
| Garbled (e : error)      (* the file opens, Decode fails with e *)
| Holding (a : A).         (* the file opens, Decode yields a *)
Arguments Missing {A}.
Arguments Unreadable {A} e.
Arguments Garbled {A} e.
Arguments Holding {A} a.

(** How a write goes: [os.Create] may fail (the file is left alone), or
    the encoder may fail after the file has been truncated. *)
Inductive DiskFault : Set :=
| CreateFails (e : error)
| EncodeFails (e : error).

Record Env : Type := {
  hexjsonFile : File HEXJSON;          (* data/hexjson.json *)
  configFile : File Config;            (* settings/config.json *)
  fulldata : HEXJSON * option error;   (* outcome of GET .../fulldatapulsechain + Decode *)
  diskFault : option DiskFault;
  created : list string                (* paths handed to os.Create, oldest first *)
}.

Definition setHexjsonFile (f : File HEXJSON) (path : string) (w : Env) : Env :=
  {| hexjsonFile := f; configFile := configFile w; fulldata := fulldata w;
     diskFault := diskFault w; created := created w ++ [path] |}.

Definition setConfigFile (f : File Config) (path : string) (w : Env) : Env :=
  {| hexjsonFile := hexjsonFile w; configFile := f; fulldata := fulldata w;
     diskFault := diskFault w; created := created w ++ [path] |}.

(** State passing over [Env]. *)
Definition IO (A : Type) : Type := Env -> A * Env.

#[global] Instance IO_ret : MRet IO := fun A (a : A) w => (a, w).
#[global] Instance IO_bind : MBind IO := fun A B (k : A -> IO B) (m : IO A) w =>
  let (a, w') := m w in k a w'.

Definition result {A} (m : IO A) (w : Env) : A := fst (m w).
Definition after {A} (m : IO A) (w : Env) : Env := snd (m w).

(** ** History store (main.go, lines 743-826) *)

Definition hexjsonPath : string := "data/hexjson.json"%string.
Definition configPath : string := "settings/config.json"%string.

Definition fetchHEXJSON : IO (HEXJSON * option error) :=
  fun w =>
    match fulldata w with
    | (_, Some err) => (([], Some err), w)
    | (data, None) => ((data, None), w)
    end.

Definition loadLocalHEXJSON : IO (HEXJSON * option error) :=
  fun w =>
    match hexjsonFile w with
    | Missing => (([], None), w)
    | Unreadable err => (([], Some err), w)
    | Garbled err => (([], Some err), w)
    | Holding data => ((data, None), w)
    end.

Definition saveLocalHEXJSON (data : HEXJSON) : IO (option error) :=
  fun w =>
    match diskFault w with
    | Some (CreateFails err) => (Some err, w)
    | Some (EncodeFails err) =>
        (Some err, setHexjsonFile (Garbled "unexpected EOF") hexjsonPath w)
    | None => (None, setHexjsonFile (Holding data) hexjsonPath w)
    end.

(** The [for _, entry := range remoteData] loop of [updateLocalHEXJSON],
    with its accumulator [newEntries] and its [break]. *)
Fixpoint collectNewEntries (localMaxDay : Z) (remoteData : HEXJSON)
    (newEntries : list HEXJSONEntry) : list HEXJSONEntry :=
  match remoteData with
  | [] => newEntries
  | entry :: rest =>
      if CurrentDay entry >? localMaxDay
      then collectNewEntries localMaxDay rest (newEntries ++ [entry])
      else newEntries
  end.

Definition updateLocalHEXJSON : IO (option error) :=
  '(localData, err) ← loadLocalHEXJSON;
   match err with
   | Some e => mret (Some e)
   | None =>
     '(remoteData, err) ← fetchHEXJSON;
     match err with
     | Some e => mret (Some e)
     | None =>
       match localData with
       | [] => saveLocalHEXJSON remoteData
       | first :: _ =>
         let localMaxDay := CurrentDay first in
         let newEntries := collectNewEntries localMaxDay remoteData [] in
         if (0 <? length newEntries)%nat
         then saveLocalHEXJSON (newEntries ++ localData)
         else mret None
       end
     end
   end.

(** What a later [loadLocalHEXJSON] would hand back: the persisted
    history. *)
Definition persisted (w : Env) : HEXJSON := fst (result loadLocalHEXJSON w).

(** Strictly descending by day (hence at most one entry per day). *)
Definition dayDescending (h : HEXJSON) : Prop :=
  StronglySorted (fun a b => CurrentDay b < CurrentDay a) h.

(** The first entry of [rest], if any, is not newer than [day]: this is
    where the scan of the remote feed stops. *)
Definition stopsAt (day : Z) (rest : HEXJSON) : Prop :=
  match rest with
  | [] => True
  | entry :: _ => CurrentDay entry <= day
  end.

(** An entry carrying only a day, for concrete runs. *)
Definition entryOn (day : Z) : HEXJSONEntry :=
  {| CurrentDay := day; TshareRateHEX := 0%float;
     DailyPayoutHEX := 0%float; PricePulseX := 0%float |}.

Definition historyEnv (localFile : File HEXJSON) (remoteData : HEXJSON) : Env :=
  {| hexjsonFile := localFile; configFile := Missing;
     fulldata := (remoteData, None); diskFault := None; created := [] |}.

(** Local days 100, 99, 98 against remote days 102, 101, 100, 99. *)
Definition specExampleEnv : Env :=
  historyEnv (Holding (map entryOn [100; 99; 98]))
             (map entryOn [102; 101; 100; 99]).

(** ** Configuration file (main.go, lines 856-885) *)

Definition loadConfig : IO (Config * option error) :=
  fun w =>
    match configFile w with
    | Missing =>
        (({| LiveDataFrequency := defaultLiveDataFrequency |}, None), w)
    | Unreadable err => ((zeroConfig, Some err), w)
    | Garbled err => ((zeroConfig, Some err), w)
    | Holding config =>
        let config :=
          if LiveDataFrequency config <=? 0
          then {| LiveDataFrequency := defaultLiveDataFrequency |}
          else config in
        ((config, None), w)
    end.

Definition saveConfig (config : Config) : IO (option error) :=
  fun w =>
    match diskFault w with
    | Some (CreateFails err) => (Some err, w)
    | Some (EncodeFails err) =>
        (Some err, setConfigFile (Garbled "unexpected EOF") configPath w)
    | None => (None, setConfigFile (Holding config) configPath w)
    end.

(** ** Process-wide state (main.go, lines 620-666)

    [latestLiveData] and [configManager] are the two globals; the
    standard logger's output and the number of [fetchLiveData] calls made
    so far are kept next to them.  The mutexes make each method body
    atomic, which is how the methods are written here. *)

Inductive LogArg : Set :=
| Text (s : string)
| Int (z : Z)
| Float (f : float64)
| Err (e : error).

Definition LogLine : Set := list LogArg.

Record ConfigManager : Set := {
  config : Config;
  changeChans : list bool   (* one-slot channels, in subscription order *)
}.

Record Proc : Set := {
  latestLiveData : LiveData;
  configManager : ConfigManager;
  logged : list LogLine;
  liveFetches : nat
}.

Definition println (line : LogLine) (p : Proc) : Proc :=
  {| latestLiveData := latestLiveData p; configManager := configManager p;
     logged := logged p ++ [line]; liveFetches := liveFetches p |}.

Definition withConfigManager (cm : ConfigManager) (p : Proc) : Proc :=
  {| latestLiveData := latestLiveData p; configManager := cm;
     logged := logged p; liveFetches := liveFetches p |}.

Definition withLatestLiveData (data : LiveData) (p : Proc) : Proc :=
  {| latestLiveData := data; configManager := configManager p;
     logged := logged p; liveFetches := liveFetches p |}.

Definition countFetch (p : Proc) : Proc :=
  {| latestLiveData := latestLiveData p; configManager := configManager p;
     logged := logged p; liveFetches := S (liveFetches p) |}.

(** [var configManager = &ConfigManager{config: Config{...default...}}]
    and the zero [latestLiveData]. *)
Definition initialProc : Proc :=
  {| latestLiveData := zeroLiveData;
     configManager :=
       {| config := {| LiveDataFrequency := defaultLiveDataFrequency |};
          changeChans := [] |};
     logged := [];
     liveFetches := 0 |}.

Definition GetLiveDataFrequency (p : Proc) : Z :=
  LiveDataFrequency (config (configManager p)).

(** The notification loop of [SetLiveDataFrequency]: a non-blocking send
    on every channel, from subscriber [i] on. *)
Fixpoint notifySubscribers (i : Z) (chans : list bool) (p : Proc)
    : list bool * Proc :=
  match chans with
  | [] => ([], p)
  | occupied :: rest =>
      let p :=
        if occupied
        then println [Text "Warning: Frequency change channel full for subscriber"; Int i] p
        else println [Text "Sent frequency change signal to subscriber"; Int i] p in
      let '(rest, p) := notifySubscribers (i + 1) rest p in
      (true :: rest, p)
  end.

Definition SetLiveDataFrequency (frequency : Z) (p : Proc) : Proc :=
  let p :=
    withConfigManager
      {| config := {| LiveDataFrequency := frequency |};
         changeChans := changeChans (configManager p) |} p in
  let p := println [Text "Set LiveDataFrequency to"; Int frequency] p in
  let '(chans, p) := notifySubscribers 0 (changeChans (configManager p)) p in
  withConfigManager
    {| config := config (configManager p); changeChans := chans |} p.

(** [Subscribe] returns the new channel, here its position in
    [changeChans]. *)
Definition Subscribe (p : Proc) : nat * Proc :=
  let cm := configManager p in
  let chans := changeChans cm ++ [false] in
  let p := withConfigManager {| config := config cm; changeChans := chans |} p in
  let p := println [Text "New subscriber added, total subscribers:";
                    Int (Z.of_nat (length chans))] p in
  (length (changeChans cm), p).

(** A receive from subscriber channel [ch] that is ready: the slot is
    emptied.  [None] when nothing is buffered. *)
Definition receiveChange (ch : nat) (p : Proc) : option Proc :=
  let cm := configManager p in
  match changeChans cm !! ch with
  | Some true =>
      Some (withConfigManager
              {| config := config cm;
                 changeChans := <[ch := false]> (changeChans cm) |} p)
  | _ => None
  end.

(** ** Start-up sequence of [main] (lines 1462-1490)

    [loadMiners] and the window set-up sit in between and touch none of
    the state kept here. *)

Definition mainUpdateHistory (st : Env * Proc) : Env * Proc :=
  let '(w, p) := st in
  let '(err, w) := updateLocalHEXJSON w in
  match err with
  | Some err => (w, println [Text "Error updating local HEXJSON:"; Err err] p)
  | None => (w, p)
  end.

Definition mainLoadConfig (st : Env * Proc) : Env * Proc :=
  let '(w, p) := st in
  let '((config, err), w) := loadConfig w in
  let '(config, p) :=
    match err with
    | Some err =>
        ({| LiveDataFrequency := defaultLiveDataFrequency |},
         println [Text "Error loading config:"; Err err] p)
    | None => (config, p)
    end in
  (w, SetLiveDataFrequency (LiveDataFrequency config) p).

(** The initial [fetchLiveData]; [response] is what the call returns. *)
Definition mainInitialFetch (response : LiveData * option error) (p : Proc) : Proc :=
  let p := countFetch p in
  match response with
  | (_, Some err) => println [Text "Error during initial live data fetch:"; Err err] p
  | (data, None) => withLatestLiveData data p
  end.

(** ** Settings tab: the "Save Frequency" button (lines 1412-1426) *)

Definition maxInt : Z := 2 ^ 63 - 1.
Definition minInt : Z := - 2 ^ 63.

Definition digitOf (ch : ascii) : option Z :=
  let n := Z.of_N (N_of_ascii ch) in
  if (48 <=? n) && (n <=? 57) then Some (n - 48) else None.

Fixpoint parseDigits (s : string) (n : Z) : option Z :=
  match s with
  | EmptyString => Some n
  | String ch rest =>
      match digitOf ch with
      | Some d => parseDigits rest (n * 10 + d)
      | None => None
      end
  end.

(** [strconv.Atoi]: an optional sign, then one or more decimal digits; a
    value outside the 64-bit range is clamped and reported. *)
Definition Atoi (s : string) : Z * option error :=
  let syntaxError : Z * option error :=
    (0, Some "strconv.Atoi: invalid syntax"%string) in
  match s with
  | EmptyString => syntaxError
  | String sign rest =>
      let neg := Ascii.eqb sign "-" in
      let digits := if neg || Ascii.eqb sign "+" then rest else s in
      match digits with
      | EmptyString => syntaxError
      | _ =>
          match parseDigits digits 0 with
          | None => syntaxError
          | Some n =>
              let n := if neg then - n else n in
              if n <? minInt
              then (minInt, Some "strconv.Atoi: value out of range"%string)
              else if maxInt <? n
              then (maxInt, Some "strconv.Atoi: value out of range"%string)
              else (n, None)
          end
      end
  end.

(** The button's handler, with [text] the content of the entry.  The
    dialogs are presentation and not kept. *)
Definition saveFrequencyTapped (text : string) (st : Env * Proc) : Env * Proc :=
  let '(w, p) := st in
  let '(frequency, err) := Atoi text in
  if bool_decide (err <> None) || (frequency <=? 0)
  then (w, p)
  else
    let config := {| LiveDataFrequency := frequency |} in
    let '(err, w) := saveConfig config w in
    match err with
    | Some err => (w, println [Text "Error saving config:"; Err err] p)
    | None => (w, SetLiveDataFrequency frequency p)
    end.

(** ** Tickers *)

Definition Minute : Z := 60000000000.   (* time.Minute, in nanoseconds *)

(** Reduction into the signed 64-bit range. *)
Definition wrap64 (z : Z) : Z := (z + 2 ^ 63) mod 2 ^ 64 - 2 ^ 63.

(** [time.Duration(frequency) * time.Minute]. *)
Definition minutes (frequency : Z) : Z := wrap64 (frequency * Minute).

Record Ticker : Set := {
  interval : Z;      (* the period, a time.Duration *)
  running : bool     (* false once Stop has been called *)
}.

(** What a step of a goroutine comes to: it ran, it panicked (which ends
    the process), or the step cannot be taken in that state. *)
Inductive Outcome (A : Type) : Type :=
| Ran (a : A)
| Panics (msg : string)
| Blocked.
Arguments Ran {A} a.
Arguments Panics {A} msg.
Arguments Blocked {A}.

Definition NewTicker (d : Z) : Outcome Ticker :=
  if d <=? 0 then Panics "non-positive interval for NewTicker"
  else Ran {| interval := d; running := true |}.

(** [Ticker.Reset] leaves a stopped ticker restarted. *)
Definition Reset (d : Z) (t : Ticker) : Outcome Ticker :=
  if d <=? 0 then Panics "non-positive interval for Ticker.Reset"
  else Ran {| interval := d; running := true |}.

Definition Stop (t : Ticker) : Ticker :=
  {| interval := interval t; running := false |}.

(** ** The fetcher goroutine of [main] (lines 1493-1519)

    Its [select] has two cases and no cancellation case.  The call to
    [fetchLiveData] takes time during which other goroutines run, so the
    ticker case is two steps: the call is issued, and it returns. *)

Record Fetcher : Set := {
  frequency : Z;
  ticker : Ticker;
  changeCh : nat;
  fetching : bool   (* inside fetchLiveData *)
}.

Inductive FetcherEvent : Set :=
| TickerFires                                        (* case <-ticker.C *)
| FetchReturns (data : LiveData) (err : option error) (* fetchLiveData returns *)
| FrequencyChanged.                                   (* case <-changeCh *)

Definition startFetcher (p : Proc) : Outcome (Proc * Fetcher) :=
  let frequency := GetLiveDataFrequency p in
  let p := println [Text "Starting live data fetch ticker with frequency:";
                    Int frequency; Text "minutes"] p in
  match NewTicker (minutes frequency) with
  | Ran ticker =>
      let '(changeCh, p) := Subscribe p in
      Ran (p, {| frequency := frequency; ticker := ticker;
                 changeCh := changeCh; fetching := false |})
  | Panics msg => Panics msg
  | Blocked => Blocked
  end.

(** [frequency = configManager.GetLiveDataFrequency()] followed by
    [ticker.Reset(...)], the tail of both cases. *)
Definition rearmFetcher (p : Proc) (g : Fetcher) : Outcome (Proc * Fetcher) :=
  let frequency := GetLiveDataFrequency p in
  match Reset (minutes frequency) (ticker g) with
  | Ran ticker =>
      Ran (p, {| frequency := frequency; ticker := ticker;
                 changeCh := changeCh g; fetching := false |})
  | Panics msg => Panics msg
  | Blocked => Blocked
  end.

Definition fetcherStep (ev : FetcherEvent) (st : Proc * Fetcher)
    : Outcome (Proc * Fetcher) :=
  let '(p, g) := st in
  match ev, fetching g with
  | TickerFires, false =>
      if running (ticker g)
      then Ran (countFetch p,
                {| frequency := frequency g; ticker := ticker g;
                   changeCh := changeCh g; fetching := true |})
      else Blocked
  | FetchReturns data err, true =>
      let p :=
        match err with
        | Some err => println [Text "Error fetching live data:"; Err err] p
        | None =>
            let p := withLatestLiveData data p in
            println [Text "Updated latestLiveData with TsharePricePulsechain:";
                     Float (TsharePricePulsechain (latestLiveData p))] p
        end in
      rearmFetcher p g
  | FrequencyChanged, false =>
      match receiveChange (changeCh g) p with
      | Some p =>
          let frequency := GetLiveDataFrequency p in
          let p := println [Text "Live data fetch ticker resetting to frequency:";
                            Int frequency; Text "minutes"] p in
          rearmFetcher p g
      | None => Blocked
      end
  | _, _ => Blocked
  end.

(** A schedule for the fetcher and the settings tab running side by
    side: the fetcher takes a step, or the user saves a frequency. *)
Inductive Move : Set :=
| Goroutine (ev : FetcherEvent)
| Settings (text : string).

Fixpoint schedule (moves : list Move) (w : Env) (st : Proc * Fetcher)
    : Outcome (Env * (Proc * Fetcher)) :=
  match moves with
  | [] => Ran (w, st)
  | Goroutine ev :: moves =>
      match fetcherStep ev st with
      | Ran st => schedule moves w st
      | Panics msg => Panics msg
      | Blocked => Blocked
      end
  | Settings text :: moves =>
      let '(w, p) := saveFrequencyTapped text (w, fst st) in
      schedule moves w (p, snd st)
  end.

(** ** The Live Data tab goroutine of [createLiveDataTab] (lines 1144-1182)

    It owns a cancellable context; its ticker case copies the cached
    snapshot into the labels. *)

Record Tab : Set := {
  tabFrequency : Z;
  tabTicker : Ticker;
  tabChangeCh : nat;
  cancelled : bool;     (* ctx.Done() is closed *)
  returned : bool;      (* the goroutine has returned *)
  labels : LiveData     (* the snapshot the six labels show *)
}.

Inductive TabEvent : Set :=
| TabTickerFires        (* case <-ticker.C *)
| TabFrequencyChanged   (* case <-changeCh *)
| ContextDone.          (* case <-ctx.Done() *)

(** The initial label update and the start of the goroutine. *)
Definition startTab (p : Proc) : Outcome (Proc * Tab) :=
  let data := latestLiveData p in
  let frequency := GetLiveDataFrequency p in
  let p := println [Text "Starting Live Data tab ticker with frequency:";
                    Int frequency; Text "minutes"] p in
  match NewTicker (minutes frequency) with
  | Ran ticker =>
      let '(changeCh, p) := Subscribe p in
      Ran (p, {| tabFrequency := frequency; tabTicker := ticker;
                 tabChangeCh := changeCh; cancelled := false;
                 returned := false; labels := data |})
  | Panics msg => Panics msg
  | Blocked => Blocked
  end.

(** [cancel()], registered with the application's stop hook. *)
Definition cancel (g : Tab) : Tab :=
  {| tabFrequency := tabFrequency g; tabTicker := tabTicker g;
     tabChangeCh := tabChangeCh g; cancelled := true;
     returned := returned g; labels := labels g |}.

Definition rearmTab (p : Proc) (shown : LiveData) (g : Tab) : Outcome (Proc * Tab) :=
  let frequency := GetLiveDataFrequency p in
  match Reset (minutes frequency) (tabTicker g) with
  | Ran ticker =>
      Ran (p, {| tabFrequency := frequency; tabTicker := ticker;
                 tabChangeCh := tabChangeCh g; cancelled := cancelled g;
                 returned := false; labels := shown |})
  | Panics msg => Panics msg
  | Blocked => Blocked
  end.

Definition tabStep (ev : TabEvent) (st : Proc * Tab) : Outcome (Proc * Tab) :=
  let '(p, g) := st in
  if returned g then Blocked
  else
    match ev with
    | TabTickerFires =>
        if running (tabTicker g)
        then let data := latestLiveData p in rearmTab p data g
        else Blocked
    | TabFrequencyChanged =>
        match receiveChange (tabChangeCh g) p with
        | Some p =>
            let frequency := GetLiveDataFrequency p in
            let p := println [Text "Live Data tab ticker resetting to frequency:";
                              Int frequency; Text "minutes"] p in
            rearmTab p (labels g) g
        | None => Blocked
        end
    | ContextDone =>
        if cancelled g
        then
          let p := println [Text "Live Data tab ticker stopped"] p in
          Ran (p, {| tabFrequency := tabFrequency g;
                     tabTicker := Stop (tabTicker g);
                     tabChangeCh := tabChangeCh g; cancelled := true;
                     returned := true; labels := labels g |})
        else Blocked
    end.

(** Any number of further steps of one tab goroutine. *)
Fixpoint tabRun (evs : list TabEvent) (st : Proc * Tab) : Outcome (Proc * Tab) :=
  match evs with
  | [] => Ran st
  | ev :: evs =>
      match tabStep ev st with
      | Ran st => tabRun evs st
      | Panics msg => Panics msg
      | Blocked => Blocked
      end
  end.

(** ** The program as a whole

    One step of the running program, seen from the shared state: the user
    saves a frequency, a goroutine starts, or a started goroutine takes a
    step.  The goroutines' own variables are left arbitrary, so every
    state the program reaches is [reachable]. *)

Definition startup (w : Env) (response : LiveData * option error) : Env * Proc :=
  let '(w, p) := mainLoadConfig (mainUpdateHistory (w, initialProc)) in
  (w, mainInitialFetch response p).

Inductive progStep : Env * Proc -> Env * Proc -> Prop :=
| step_settings text st :
    progStep st (saveFrequencyTapped text st)
| step_startFetcher w p p' g :
    startFetcher p = Ran (p', g) -> progStep (w, p) (w, p')
| step_fetcher ev w p g p' g' :
    fetcherStep ev (p, g) = Ran (p', g') -> progStep (w, p) (w, p')
| step_startTab w p p' g :
    startTab p = Ran (p', g) -> progStep (w, p) (w, p')
| step_tab ev w p g p' g' :
    tabStep ev (p, g) = Ran (p', g') -> progStep (w, p) (w, p').

Inductive reachable : Env * Proc -> Prop :=
| reach_startup w response : reachable (startup w response)
| reach_step st st' : reachable st -> progStep st st' -> reachable st'.

(** A first start: no files yet, an empty feed, a live snapshot of
    zeros. *)
Definition coldStart : Env * Proc :=
  startup (historyEnv Missing []) (zeroLiveData, None).

(** ** Notification log lines

    The line [SetLiveDataFrequency] prints for subscriber [i], by the
    state of its slot. *)
Definition notifyLine (i : Z) (occupied : bool) : LogLine :=
  if occupied
  then [Text "Warning: Frequency change channel full for subscriber"; Int i]
  else [Text "Sent frequency change signal to subscriber"; Int i].

(** ** Miners (main.go, lines 687-692 and 828-854)

    [settings/miners.json] is independent of the two files of [Env] and
    is kept in a store of its own.  As for the other files, [Holding]
    carries what a later decode of the file yields. *)

Record Miner : Set := {
  StartDate : string;
  EndDate : string;
  TShares : float64;
  Status : string
}.

Record MinerDisk : Type := {
  minersFile : File (list Miner);     (* settings/miners.json *)
  minersFault : option DiskFault
}.

Definition withMinersFile (f : File (list Miner)) (d : MinerDisk) : MinerDisk :=
  {| minersFile := f; minersFault := minersFault d |}.

Definition loadMiners (d : MinerDisk) : list Miner * option error :=
  match minersFile d with
  | Missing => ([], None)
  | Unreadable err => ([], Some err)
  | Garbled err => ([], Some err)
  | Holding miners => (miners, None)
  end.

(** *** Text through [encoding/json]

    The encoder walks a string rune by rune with
    [utf8.DecodeRuneInString] and writes the escape of U+FFFD for every
    byte that does not start a well-formed encoding; every other rune
    comes back from the decoder as it went in.  [runeSize] is the size
    [DecodeRuneInString] reports for a well-formed encoding at the head
    of [s], following its table of first bytes and accept ranges, and
    [None] where it reports [RuneError] with size 1. *)

Definition between (lo hi b : N) : bool := ((lo <=? b) && (b <=? hi))%N.

Definition byteAt (i : nat) (s : string) : option N :=
  N_of_ascii <$> String.get i s.

(** [first[s0]]: the size and the accept range of the second byte. *)
Definition first (s0 : N) : option (nat * (N * N)) :=
  if between 194 223 s0 then Some (2%nat, (128, 191)%N)           (* C2-DF *)
  else if (s0 =? 224)%N then Some (3%nat, (160, 191)%N)           (* E0 *)
  else if between 225 236 s0 then Some (3%nat, (128, 191)%N)      (* E1-EC *)
  else if (s0 =? 237)%N then Some (3%nat, (128, 159)%N)           (* ED *)
  else if between 238 239 s0 then Some (3%nat, (128, 191)%N)      (* EE-EF *)
  else if (s0 =? 240)%N then Some (4%nat, (144, 191)%N)           (* F0 *)
  else if between 241 243 s0 then Some (4%nat, (128, 191)%N)      (* F1-F3 *)
  else if (s0 =? 244)%N then Some (4%nat, (128, 143)%N)           (* F4 *)
  else None.

Definition runeSize (s : string) : option nat :=
  match byteAt 0 s with
  | None => None
  | Some s0 =>
      if (s0 <? 128)%N then Some 1%nat
      else
        match first s0 with
        | None => None
        | Some (sz, (lo, hi)) =>
            if (String.length s <? sz)%nat then None
            else
              match byteAt 1 s with
              | None => None
              | Some s1 =>
                  if negb (between lo hi s1) then None
                  else if (sz <=? 2)%nat then Some 2%nat
                  else
                    match byteAt 2 s with
                    | None => None
                    | Some s2 =>
                        if negb (between 128 191 s2) then None
                        else if (sz <=? 3)%nat then Some 3%nat
                        else
                          match byteAt 3 s with
                          | None => None
                          | Some s3 =>
                              if negb (between 128 191 s3) then None
                              else Some 4%nat
                          end
                    end
              end
        end
  end.

(** U+FFFD in UTF-8. *)
Definition replacementChar : string :=
  String (ascii_of_N 239) (String (ascii_of_N 191) (String (ascii_of_N 189) "")).

(** The text a decode yields for an encoded [s]; [keep] counts the bytes
    of the current rune still to be copied. *)
Fixpoint coerceUTF8 (keep : nat) (s : string) : string :=
  match s with
  | EmptyString => EmptyString
  | String c rest =>
      match keep with
      | S keep => String c (coerceUTF8 keep rest)
      | O =>
          match runeSize s with
          | Some size => String c (coerceUTF8 (size - 1) rest)
          | None => (replacementChar ++ coerceUTF8 0 rest)%string
          end
      end
  end.

Definition jsonText (s : string) : string := coerceUTF8 0 s.

Definition jsonMiner (m : Miner) : Miner :=
  {| StartDate := jsonText (StartDate m); EndDate := jsonText (EndDate m);
     TShares := TShares m; Status := jsonText (Status m) |}.

(** [json.Encoder.Encode] refuses a float that is NaN or infinite, with
    an [UnsupportedValueError] whose text ends in
    [strconv.FormatFloat(f, 'g', -1, 64)]. *)
Definition encodable (miners : list Miner) : bool :=
  forallb (fun m => PrimFloat.is_finite (TShares m)) miners.

Definition formatSpecial (f : float64) : string :=
  if PrimFloat.is_nan f then "NaN"
  else if (0 <? f)%float then "+Inf"
  else "-Inf".

Definition unsupportedValue (miners : list Miner) : option error :=
  match List.find (fun m => negb (PrimFloat.is_finite (TShares m))) miners with
  | Some m => Some ("json: unsupported value: " ++ formatSpecial (TShares m))%string
  | None => None
  end.

(** [os.Create] truncates the file; the encoder writes to it only once
    the whole value has been encoded, so an unsupported value leaves it
    empty, and the next decode ends in [io.EOF]. *)
Definition saveMiners (miners : list Miner) (d : MinerDisk)
    : option error * MinerDisk :=
  match minersFault d with
  | Some (CreateFails err) => (Some err, d)
  | Some (EncodeFails err) => (Some err, withMinersFile (Garbled "unexpected EOF") d)
  | None =>
      match unsupportedValue miners with
      | Some err => (Some err, withMinersFile (Garbled "EOF") d)
      | None => (None, withMinersFile (Holding (jsonMiner <$> miners)) d)
      end
  end.

(** *** [refreshTabs] (lines 1526-1535)

    The window is rebuilt from the miners on disk.  [createProfileTab]
    starts its ticker goroutine unless there is no miner to show (lines
    931-933 and 958-982); [createLiveDataTab] always starts one (lines
    1144-1182, [startTab] and [tabStep] above); [createSettingsTab]
    starts none.  The goroutines of the tabs that are replaced keep
    running.  The steps of a started goroutine, its "Starting ..." line
    and its [Subscribe] among them, are taken after the [go] statement
    and are no part of the handler's own run. *)

Inductive TabGoroutine : Set :=
| ProfileTicker
| LiveDataTicker.

Record Rebuilt : Set := {
  shownMiners : list Miner;        (* [miners], as both miner tabs get it *)
  spawned : list TabGoroutine      (* the [go] statements run, in order *)
}.

Definition createProfileTab (miners : list Miner) : list TabGoroutine :=
  if (length miners =? 0)%nat then [] else [ProfileTicker].

Definition createLiveDataTab : list TabGoroutine := [LiveDataTicker].

Definition refreshTabs (st : MinerDisk * Proc) : Rebuilt * (MinerDisk * Proc) :=
  let '(d, p) := st in
  let p := println [Text "Refreshing tabs"] p in
  let miners := fst (loadMiners d) in
  ({| shownMiners := miners;
      spawned := createProfileTab miners ++ createLiveDataTab |}, (d, p)).

(** The first steps of a started goroutine, up to its loop: it reads the
    interval, logs, arms a ticker and subscribes (lines 960-963 for the
    Profile tab; lines 1146-1149 for the Live Data tab, as in
    [startTab]).  A panic in [time.NewTicker] ends the program. *)
Definition startProfileTicker (p : Proc) : Outcome (Proc * (Ticker * nat)) :=
  let frequency := GetLiveDataFrequency p in
  let p := println [Text "Starting Profile tab ticker with frequency:";
                    Int frequency; Text "minutes"] p in
  match NewTicker (minutes frequency) with
  | Ran ticker =>
      let '(changeCh, p) := Subscribe p in
      Ran (p, (ticker, changeCh))
  | Panics msg => Panics msg
  | Blocked => Blocked
  end.

Definition startSpawned (g : TabGoroutine) (p : Proc) : Outcome Proc :=
  match g with
  | ProfileTicker =>
      match startProfileTicker p with
      | Ran (p, _) => Ran p
      | Panics msg => Panics msg
      | Blocked => Blocked
      end
  | LiveDataTicker =>
      match startTab p with
      | Ran (p, _) => Ran p
      | Panics msg => Panics msg
      | Blocked => Blocked
      end
  end.

(** The goroutines of [order] take their first steps one after the
    other. *)
Fixpoint startAll (order : list TabGoroutine) (p : Proc) : Outcome Proc :=
  match order with
  | [] => Ran p
  | g :: order =>
      match startSpawned g p with
      | Ran p => startAll order p
      | Panics msg => Panics msg
      | Blocked => Blocked
      end
  end.

(** [if err := saveMiners(...); err != nil { log.Println(...) }], the
    step before [refreshTabs()] in the three handlers. *)
Definition saveAndLog (miners : list Miner) (st : MinerDisk * Proc)
    : MinerDisk * Proc :=
  let '(d, p) := st in
  let '(err, d) := saveMiners miners d in
  match err with
  | Some err => (d, println [Text "Error saving miners:"; Err err] p)
  | None => (d, p)
  end.



(** Settings tab, Delete button confirmed (lines 1431-1441):
    [append(localMiners[:idx], localMiners[idx+1:]...)], save, refresh.
    Here too [idx] comes from a loop over [localMiners] and is in range;
    outside it a slice expression panics, with bounds in its message
    that depend on the capacity of the slice. *)
Definition deleteConfirmed (idx : nat) (localMiners : list Miner)
    (st : MinerDisk * Proc) : Outcome (Rebuilt * (MinerDisk * Proc)) :=
  if (idx <? length localMiners)%nat
  then Ran (refreshTabs
              (saveAndLog (take idx localMiners ++ drop (S idx) localMiners) st))
  else Panics "runtime error: slice bounds out of range".

(** Settings tab, Add Miner button (lines 1366-1406, with the entry's
    validator of lines 1268-1280).  [time.Parse] with the layout
    [dateLayout] and [strconv.ParseFloat] are taken as they come.  The
    handler either shows an error dialog and returns, or saves and
    refreshes. *)
Inductive Added : Set :=
| ShowError (err : error)
| Refreshed (tabs : Rebuilt).

Section AddMiner.
Variable timeParse : string -> option error.
Variable ParseFloat : string -> float64 * option error.

Definition tSharesValidator (s : string) : option error :=
  if String.eqb s ""
  then Some "T-Shares is required"%string
  else
    let '(val, err) := ParseFloat s in
    match err with
    | Some _ => Some "T-Shares must be a valid number"%string
    | None =>
        if (val <=? 0)%float
        then Some "T-Shares must be positive number"%string
        else None
    end.

Definition addMinerTapped (startDate endDate tSharesText : string)
    (localMiners : list Miner) (st : MinerDisk * Proc)
    : Added * (MinerDisk * Proc) :=
  if String.eqb startDate "" then (ShowError "Start date is required", st)
  else if String.eqb endDate "" then (ShowError "End date is required", st)
  else if bool_decide (timeParse startDate <> None)
  then (ShowError "Invalid start date format", st)
  else if bool_decide (timeParse endDate <> None)
  then (ShowError "Invalid end date format", st)
  else if String.eqb tSharesText "" then (ShowError "T-Shares is required", st)
  else
    match tSharesValidator tSharesText with
    | Some err => (ShowError err, st)
    | None =>
        let '(tShares, err) := ParseFloat tSharesText in
        match err with
        | Some err => (ShowError ("Invalid T-Shares: " ++ err), st)
        | None =>
            let newMiner :=
              {| StartDate := startDate; EndDate := endDate;
                 TShares := tShares; Status := "" |} in
            let '(tabs, st) := refreshTabs (saveAndLog (localMiners ++ [newMiner]) st) in
            (Refreshed tabs, st)
        end
    end.
End AddMiner.

(** ** Completed miners window (lines 1029-1119) *)

Definition isCompleted (m : Miner) : bool := String.eqb (Status m) "completed".

(** The loop collecting [completedMiners]. *)
Fixpoint collectCompleted (miners : list Miner) (completedMiners : list Miner)
    : list Miner :=
  match miners with
  | [] => completedMiners
  | m :: rest =>
      collectCompleted rest
        (if isCompleted m then completedMiners ++ [m] else completedMiners)
  end.

Definition itemsPerPage : Z := 10.

Record Pager : Set := {
  completedMiners : list Miner;
  totalPages : Z;
  currentPage : Z;
  minersBox : list Miner;        (* the miners whose labels are shown *)
  pageLabel : Z * Z;             (* "Page %d of %d" *)
  previousEnabled : bool;
  nextEnabled : bool
}.

(** [for i := startIndex; i < endIndex; i++ { miner := completedMiners[i]; ... }] *)
Fixpoint addLabels (completed : list Miner) (i : Z) (steps : nat)
    (box : list Miner) : Outcome (list Miner) :=
  match steps with
  | O => Ran box
  | S steps =>
      if i <? 0 then Panics "index out of range"
      else
        match completed !! Z.to_nat i with
        | Some miner => addLabels completed (i + 1) steps (box ++ [miner])
        | None => Panics "index out of range"
        end
  end.

Definition updateMiners (pg : Pager) : Outcome Pager :=
  let startIndex := (currentPage pg - 1) * itemsPerPage in
  let endIndex := startIndex + itemsPerPage in
  let endIndex :=
    if Z.of_nat (length (completedMiners pg)) <? endIndex
    then Z.of_nat (length (completedMiners pg))
    else endIndex in
  match addLabels (completedMiners pg) startIndex
          (Z.to_nat (endIndex - startIndex)) [] with
  | Ran box =>
      Ran {| completedMiners := completedMiners pg; totalPages := totalPages pg;
             currentPage := currentPage pg; minersBox := box;
             pageLabel := (currentPage pg, totalPages pg);
             previousEnabled := previousEnabled pg;
             nextEnabled := nextEnabled pg |}
  | Panics msg => Panics msg
  | Blocked => Blocked
  end.

Definition withCurrentPage (page : Z) (pg : Pager) : Pager :=
  {| completedMiners := completedMiners pg; totalPages := totalPages pg;
     currentPage := page; minersBox := minersBox pg;
     pageLabel := pageLabel pg; previousEnabled := previousEnabled pg;
     nextEnabled := nextEnabled pg |}.

Definition setPrevious (enabled : bool) (pg : Pager) : Pager :=
  {| completedMiners := completedMiners pg; totalPages := totalPages pg;
     currentPage := currentPage pg; minersBox := minersBox pg;
     pageLabel := pageLabel pg; previousEnabled := enabled;
     nextEnabled := nextEnabled pg |}.

Definition setNext (enabled : bool) (pg : Pager) : Pager :=
  {| completedMiners := completedMiners pg; totalPages := totalPages pg;
     currentPage := currentPage pg; minersBox := minersBox pg;
     pageLabel := pageLabel pg; previousEnabled := previousEnabled pg;
     nextEnabled := enabled |}.

Definition previousTapped (pg : Pager) : Outcome Pager :=
  if 1 <? currentPage pg
  then
    match updateMiners (withCurrentPage (currentPage pg - 1) pg) with
    | Ran pg =>
        let pg := if currentPage pg =? 1 then setPrevious false pg else pg in
        let pg := if currentPage pg <? totalPages pg then setNext true pg else pg in
        Ran pg
    | Panics msg => Panics msg
    | Blocked => Blocked
    end
  else Ran pg.

Definition nextTapped (pg : Pager) : Outcome Pager :=
  if currentPage pg <? totalPages pg
  then
    match updateMiners (withCurrentPage (currentPage pg + 1) pg) with
    | Ran pg =>
        let pg := if currentPage pg =? totalPages pg then setNext false pg else pg in
        let pg := if 1 <? currentPage pg then setPrevious true pg else pg in
        Ran pg
    | Panics msg => Panics msg
    | Blocked => Blocked
    end
  else Ran pg.

(** The "View Completed Miners" button: [None] is the window that only
    says "No completed miners.". *)
Definition viewCompleted (miners : list Miner) : Outcome (option Pager) :=
  let completed := collectCompleted miners [] in
  if (length completed =? 0)%nat then Ran None
  else
    let totalPages :=
      (Z.of_nat (length completed) + itemsPerPage - 1) ÷ itemsPerPage in
    match updateMiners
            {| completedMiners := completed; totalPages := totalPages;
               currentPage := 1; minersBox := [];
               pageLabel := (1, totalPages);
               previousEnabled := true; nextEnabled := true |} with
    | Ran pg =>
        let pg := if currentPage pg =? 1 then setPrevious false pg else pg in
        let pg := if currentPage pg =? totalPages then setNext false pg else pg in
        Ran (Some pg)
    | Panics msg => Panics msg
    | Blocked => Blocked
    end.

(** What a pager in order looks like: the page number is in range, the
    box shows that page's slice, the label agrees, and each button is
    enabled exactly when there is a page in its direction. *)
Definition pagerInOrder (pg : Pager) : Prop :=
  completedMiners pg <> []
  /\ totalPages pg = (Z.of_nat (length (completedMiners pg)) + 9) / 10
  /\ 1 <= currentPage pg <= totalPages pg
  /\ minersBox pg
     = take 10 (drop (Z.to_nat ((currentPage pg - 1) * 10)) (completedMiners pg))
  /\ pageLabel pg = (currentPage pg, totalPages pg)
  /\ previousEnabled pg = (1 <? currentPage pg)
  /\ nextEnabled pg = (currentPage pg <? totalPages pg).

(** [n] taps on "Next". *)
Fixpoint nextTaps (n : nat) (pg : Pager) : Outcome Pager :=
  match n with
  | O => Ran pg
  | S n =>
      match nextTapped pg with
      | Ran pg => nextTaps n pg
      | Panics msg => Panics msg
      | Blocked => Blocked
      end
  end.

(** ** Number formatting (lines 914-932) *)

(** [strconv.Itoa]: decimal digits, a leading minus sign for a negative
    number. *)
Definition Itoa (num : Z) : string := NilZero.string_of_int (Z.to_int num).

(** The loop of [formatWithCommas] over the bytes of [str], from index
    [i] on, [n] being [len(str)]. *)
Fixpoint insertCommas (n i : Z) (bytes : list ascii) (result : list ascii)
    : list ascii :=
  match bytes with
  | [] => result
  | ch :: rest =>
      let result :=
        if (0 <? i) && (Z.rem (n - i) 3 =? 0)
        then result ++ [","%char]
        else result in
      insertCommas n (i + 1) rest (result ++ [ch])
  end.

Definition formatWithCommas (num : Z) : string :=
  let str := Itoa num in
  let n := Z.of_nat (String.length str) in
  if n <=? 3 then str
  else string_of_list_ascii (insertCommas n 0 (list_ascii_of_string str) []).

Definition formatLongWithCommas (num : Z) : string := formatWithCommas num.

(** A comma after every character that is followed by a positive
    multiple of three characters. *)
Fixpoint punctuate (bytes : list ascii) : list ascii :=
  match bytes with
  | [] => []
  | ch :: rest =>
      if (0 <? length rest)%nat && (length rest mod 3 =? 0)%nat
      then ch :: ","%char :: punctuate rest
      else ch :: punctuate rest
  end.

Definition stripCommas (s : list ascii) : list ascii :=
  List.filter (fun ch => negb (Ascii.eqb ch ",")) s.

(** ** Facts about the scan loop *)

Section Scan.
Variable localMaxDay : Z.

Lemma collectNewEntries_acc (remoteData acc : HEXJSON) :
  collectNewEntries localMaxDay remoteData acc
  = acc ++ collectNewEntries localMaxDay remoteData [].
Proof.
  revert acc.
  induction remoteData as [|entry rest IH]; intros acc; simpl.
  - by rewrite app_nil_r.
  - destruct (CurrentDay entry >? localMaxDay); [|by rewrite app_nil_r].
    rewrite (IH (acc ++ [entry])), (IH [entry]).
    by rewrite <- app_assoc.
Qed.

Lemma collectNewEntries_cons_newer entry rest :
  localMaxDay < CurrentDay entry ->
  collectNewEntries localMaxDay (entry :: rest) []
  = entry :: collectNewEntries localMaxDay rest [].
Proof.
  intros Hgt. simpl.
  destruct (Z.gtb_spec (CurrentDay entry) localMaxDay) as [_|Hle]; [|lia].
  by rewrite collectNewEntries_acc.
Qed.

Lemma collectNewEntries_cons_stop entry rest :
  CurrentDay entry <= localMaxDay ->
  collectNewEntries localMaxDay (entry :: rest) [] = [].
Proof.
  intros Hle. simpl.
  by destruct (Z.gtb_spec (CurrentDay entry) localMaxDay) as [Hgt|_]; [lia|].
Qed.

(** The loop returns the longest prefix of strictly newer entries. *)
Lemma collectNewEntries_prefix (remoteData : HEXJSON) :
  exists rest,
    remoteData = collectNewEntries localMaxDay remoteData [] ++ rest
    /\ Forall (fun e => localMaxDay < CurrentDay e)
              (collectNewEntries localMaxDay remoteData [])
    /\ stopsAt localMaxDay rest.
Proof.
  induction remoteData as [|entry tl IH].
  - exists []. simpl. auto.
  - destruct (Z.lt_ge_cases localMaxDay (CurrentDay entry)) as [Hgt|Hle].
    + rewrite collectNewEntries_cons_newer by done.
      destruct IH as (rest & Heq & Hall & Hstop).
      exists rest. split; [simpl; congruence|]. split; [|done].
      by constructor.
    + rewrite collectNewEntries_cons_stop by done.
      exists (entry :: tl). repeat split; [constructor | exact Hle].
Qed.

(** A prefix of newer entries followed by a stopping point is what the
    loop collects: the decomposition is unique. *)
Lemma collectNewEntries_app (newer rest : HEXJSON) :
  Forall (fun e => localMaxDay < CurrentDay e) newer ->
  stopsAt localMaxDay rest ->
  collectNewEntries localMaxDay (newer ++ rest) [] = newer.
Proof.
  intros Hall Hstop.
  induction Hall as [|e newer He Hall IH]; simpl app.
  - destruct rest as [|e tl]; [done|].
    by apply collectNewEntries_cons_stop.
  - rewrite collectNewEntries_cons_newer by done. by rewrite IH.
Qed.

Lemma collectNewEntries_none (remoteData : HEXJSON) :
  Forall (fun e => CurrentDay e <= localMaxDay) remoteData ->
  collectNewEntries localMaxDay remoteData [] = [].
Proof.
  intros Hall. destruct Hall as [|e tl He _]; [done|].
  by apply collectNewEntries_cons_stop.
Qed.
End Scan.

(** ** Unfolding [updateLocalHEXJSON] along its paths *)

Ltac run_update Hload Hfetch :=
  unfold updateLocalHEXJSON, result, mbind, IO_bind, loadLocalHEXJSON,
    fetchHEXJSON in *;
  match goal with
  | w : Env |- _ => destruct (hexjsonFile w); simpl in *
  end;
  inversion Hload; subst; try rewrite Hfetch; simpl.

Lemma update_load_error w err :
  snd (result loadLocalHEXJSON w) = Some err ->
  updateLocalHEXJSON w = (Some err, w).
Proof.
  unfold updateLocalHEXJSON, result, mbind, IO_bind, loadLocalHEXJSON.
  destruct (hexjsonFile w); simpl; intros [=]; by subst.
Qed.

Lemma update_fetch_error w localData junk err :
  result loadLocalHEXJSON w = (localData, None) ->
  fulldata w = (junk, Some err) ->
  updateLocalHEXJSON w = (Some err, w).
Proof.
  intros Hload Hfetch. by run_update Hload Hfetch.
Qed.

Lemma update_bootstrap w remoteData :
  result loadLocalHEXJSON w = ([], None) ->
  fulldata w = (remoteData, None) ->
  updateLocalHEXJSON w = saveLocalHEXJSON remoteData w.
Proof.
  intros Hload Hfetch. by run_update Hload Hfetch.
Qed.

Lemma update_incremental w first others remoteData :
  result loadLocalHEXJSON w = (first :: others, None) ->
  fulldata w = (remoteData, None) ->
  updateLocalHEXJSON w =
    match collectNewEntries (CurrentDay first) remoteData [] with
    | [] => (None, w)
    | newEntries => saveLocalHEXJSON (newEntries ++ first :: others) w
    end.
Proof.
  intros Hload Hfetch. run_update Hload Hfetch.
  by destruct (collectNewEntries _ _ _).
Qed.

Lemma persisted_Holding w data :
  hexjsonFile w = Holding data -> result loadLocalHEXJSON w = (data, None).
Proof. unfold result, loadLocalHEXJSON. by intros ->. Qed.

Lemma save_ok w data :
  diskFault w = None ->
  saveLocalHEXJSON data w = (None, setHexjsonFile (Holding data) hexjsonPath w).
Proof. unfold saveLocalHEXJSON. by intros ->. Qed.

(** ** Sortedness helpers *)

Lemma dayDescending_NoDup (h : HEXJSON) :
  dayDescending h -> NoDup (map CurrentDay h).
Proof.
  induction 1 as [|e h _ IH Hall]; simpl; constructor; [|done].
  rewrite list_elem_of_In, in_map_iff. intros (e' & Heq & Hin).
  rewrite Forall_forall in Hall.
  apply list_elem_of_In, Hall in Hin. lia.
Qed.

Lemma dayDescending_below_first (first : HEXJSONEntry) (others : HEXJSON) :
  dayDescending (first :: others) ->
  Forall (fun e => CurrentDay e <= CurrentDay first) (first :: others).
Proof.
  intros [Hall _]%StronglySorted_cons. constructor; [lia|].
  eapply Forall_impl; [exact Hall|]. simpl. intros; lia.
Qed.

Lemma dayDescending_prepend (newer localData : HEXJSON) (first : HEXJSONEntry) :
  dayDescending newer ->
  Forall (fun e => CurrentDay first < CurrentDay e) newer ->
  Forall (fun e => CurrentDay e <= CurrentDay first) localData ->
  dayDescending localData ->
  dayDescending (newer ++ localData).
Proof.
  intros Hnewer Habove Hbelow Hlocal.
  apply StronglySorted_app. split; [|done].
  intros x y Hx Hy.
  rewrite Forall_forall in Habove. rewrite Forall_forall in Hbelow.
  specialize (Habove x Hx). specialize (Hbelow y Hy). lia.
Qed.

(** ** The history refresh *)

(** C1.  Merge performed by [updateLocalHEXJSON].  When the local file
    yields [localData], the endpoint yields [remoteData] and the disk
    takes writes, the refresh reports no error and the history persisted
    afterwards is: [remoteData] itself when [localData] is empty;
    otherwise [newer ++ localData], where [newer] is the prefix of
    [remoteData] whose days all exceed the day of [localData]'s first
    entry and which ends at the first entry that does not exceed it.  If
    that prefix is empty the persisted history is [localData].  This
    holds for all sequences, day-descending ones in particular. *)
Theorem updateLocalHEXJSON_merge (w : Env) (localData remoteData : HEXJSON) :
  result loadLocalHEXJSON w = (localData, None) ->
  fulldata w = (remoteData, None) ->
  diskFault w = None ->
  result updateLocalHEXJSON w = None /\
  match localData with
  | [] => result loadLocalHEXJSON (after updateLocalHEXJSON w) = (remoteData, None)
  | first :: _ =>
      exists newer rest : HEXJSON,
        remoteData = newer ++ rest
        /\ Forall (fun e => CurrentDay first < CurrentDay e) newer
        /\ stopsAt (CurrentDay first) rest
        /\ result loadLocalHEXJSON (after updateLocalHEXJSON w)
           = (newer ++ localData, None)
        /\ (newer = [] ->
            result loadLocalHEXJSON (after updateLocalHEXJSON w)
            = (localData, None))
  end.
Proof.
  intros Hload Hfetch Hdisk.
  destruct localData as [|first others].
  - unfold result at 1, after.
    rewrite (update_bootstrap _ _ Hload Hfetch), (save_ok _ _ Hdisk).
    by split.
  - unfold result at 1, after.
    rewrite (update_incremental _ _ _ _ Hload Hfetch).
    destruct (collectNewEntries_prefix (CurrentDay first) remoteData)
      as (rest & Hsplit & Habove & Hstop).
    destruct (collectNewEntries (CurrentDay first) remoteData [])
      as [|e newer] eqn:Hscan.
    + split; [done|]. exists [], rest. simpl. by repeat split.
    + rewrite (save_ok _ _ Hdisk). split; [done|].
      exists (e :: newer), rest. by repeat split.
Qed.

Lemma updateLocalHEXJSON_merge_witness :
  result updateLocalHEXJSON specExampleEnv = None /\
  exists newer rest : HEXJSON,
    map entryOn [102; 101; 100; 99] = newer ++ rest
    /\ Forall (fun e => 100 < CurrentDay e) newer
    /\ stopsAt 100 rest
    /\ result loadLocalHEXJSON (after updateLocalHEXJSON specExampleEnv)
       = (newer ++ map entryOn [100; 99; 98], None)
    /\ (newer = [] ->
        result loadLocalHEXJSON (after updateLocalHEXJSON specExampleEnv)
        = (map entryOn [100; 99; 98], None)).
Proof.
  exact (updateLocalHEXJSON_merge specExampleEnv
           (map entryOn [100; 99; 98]) (map entryOn [102; 101; 100; 99])
           eq_refl eq_refl eq_refl).
Defined.

(** The two worked merges of the specification. *)
Example merge_correctness_example :
  map CurrentDay (persisted (after updateLocalHEXJSON specExampleEnv))
  = [102; 101; 100; 99; 98].
Proof. reflexivity. Qed.

Example bootstrap_example :
  persisted (after updateLocalHEXJSON (historyEnv Missing (map entryOn [5; 4; 3])))
  = map entryOn [5; 4; 3].
Proof. reflexivity. Qed.

(** What is persisted after a call of [saveLocalHEXJSON]. *)
Lemma persisted_after_save (data : HEXJSON) (w : Env) :
  persisted (after (saveLocalHEXJSON data) w) =
    match diskFault w with
    | None => data
    | Some (CreateFails _) => persisted w
    | Some (EncodeFails _) => []
    end.
Proof.
  unfold persisted, after, result, saveLocalHEXJSON.
  by destruct (diskFault w) as [[?|?]|].
Qed.

(** Every path of the refresh, in one case analysis: nothing happens, or
    [saveLocalHEXJSON] runs on the bootstrap data or on the newer entries
    put before the local ones. *)
Lemma update_cases (w : Env) :
  (exists err, updateLocalHEXJSON w = (err, w))
  \/ (result loadLocalHEXJSON w = ([], None)
      /\ updateLocalHEXJSON w = saveLocalHEXJSON (fst (result fetchHEXJSON w)) w
      /\ snd (result fetchHEXJSON w) = None)
  \/ (exists first others e newer,
        result loadLocalHEXJSON w = (first :: others, None)
        /\ snd (result fetchHEXJSON w) = None
        /\ collectNewEntries (CurrentDay first) (fst (result fetchHEXJSON w)) []
           = e :: newer
        /\ updateLocalHEXJSON w
           = saveLocalHEXJSON ((e :: newer) ++ first :: others) w).
Proof.
  destruct (result loadLocalHEXJSON w) as [localData [err|]] eqn:Hload.
  { left. exists (Some err). apply update_load_error. by rewrite Hload. }
  destruct (fulldata w) as [remoteData [err|]] eqn:Hfetch.
  { left. exists (Some err). by eapply update_fetch_error. }
  assert (result fetchHEXJSON w = (remoteData, None)) as Hres
    by (unfold result, fetchHEXJSON; by rewrite Hfetch).
  destruct localData as [|first others].
  - right; left. rewrite Hres. simpl. split; [done|].
    split; [|done]. by apply update_bootstrap.
  - rewrite Hres. simpl.
    pose proof (update_incremental _ _ _ _ Hload Hfetch) as Hupd.
    destruct (collectNewEntries (CurrentDay first) remoteData [])
      as [|e newer] eqn:Hscan.
    + left. by exists None.
    + right; right. by exists first, others, e, newer.
Qed.

(** C2.  Ordering invariant of the refresh.  If the persisted history is
    strictly descending by day and so is the sequence the endpoint
    returns, the history persisted after [updateLocalHEXJSON] is again
    strictly descending by day, and no day occurs twice in it.  No
    contiguity of the remote feed is needed, and the statement covers the
    failing paths too (load, fetch or write errors). *)
Theorem updateLocalHEXJSON_keeps_descending (w : Env) :
  dayDescending (persisted w) ->
  dayDescending (fst (result fetchHEXJSON w)) ->
  dayDescending (persisted (after updateLocalHEXJSON w))
  /\ NoDup (map CurrentDay (persisted (after updateLocalHEXJSON w))).
Proof.
  intros Hlocal Hremote.
  cut (dayDescending (persisted (after updateLocalHEXJSON w))).
  { intros H. split; [done|]. by apply dayDescending_NoDup. }
  destruct (update_cases w)
    as [[err Hupd]
       |[(Hload & Hupd & _)
        |(first & others & e & newer & Hload & _ & Hscan & Hupd)]];
    unfold after at 1; rewrite Hupd.
  - done.
  - fold (after (saveLocalHEXJSON (fst (result fetchHEXJSON w))) w).
    rewrite persisted_after_save.
    destruct (diskFault w) as [[?|?]|]; [done|constructor|done].
  - fold (after (saveLocalHEXJSON ((e :: newer) ++ first :: others)) w).
    rewrite persisted_after_save.
    destruct (diskFault w) as [[?|?]|]; [done|constructor|].
    unfold persisted in Hlocal. rewrite Hload in Hlocal. simpl in Hlocal.
    destruct (collectNewEntries_prefix (CurrentDay first)
                (fst (result fetchHEXJSON w))) as (rest & Hsplit & Habove & _).
    rewrite Hscan in Hsplit, Habove.
    apply (dayDescending_prepend _ _ first); try done.
    + rewrite Hsplit in Hremote. by apply StronglySorted_app_1_l in Hremote.
    + by apply dayDescending_below_first.
Qed.

Lemma updateLocalHEXJSON_keeps_descending_witness :
  dayDescending (persisted (after updateLocalHEXJSON specExampleEnv))
  /\ NoDup (map CurrentDay (persisted (after updateLocalHEXJSON specExampleEnv))).
Proof.
  apply (updateLocalHEXJSON_keeps_descending specExampleEnv).
  - repeat (constructor; [|repeat (constructor; [simpl; lia|]); constructor]).
    constructor.
  - repeat (constructor; [|repeat (constructor; [simpl; lia|]); constructor]).
    constructor.
Defined.

(** ** Idempotence *)

Lemma persisted_file (w : Env) :
  persisted w = match hexjsonFile w with Holding data => data | _ => [] end.
Proof.
  unfold persisted, result, loadLocalHEXJSON. by destruct (hexjsonFile w).
Qed.

(** A refresh that finds the file unreadable or undecodable leaves the
    world alone. *)
Lemma update_on_broken_file (w : Env) (e : error) :
  hexjsonFile w = Garbled e \/ hexjsonFile w = Unreadable e ->
  after updateLocalHEXJSON w = w.
Proof.
  intros Hfile. unfold after.
  rewrite (update_load_error w e); [done|].
  unfold result, loadLocalHEXJSON. by destruct Hfile as [-> | ->].
Qed.

(** A refresh whose local history already starts with the first remote
    entry writes the same content again, if it writes at all. *)
Lemma update_caught_up (w : Env) (data : HEXJSON) :
  hexjsonFile w = Holding data ->
  diskFault w = None ->
  fulldata w = (data, None) \/
    (exists e front rest, data = e :: front /\ fulldata w = (e :: rest, None)) ->
  hexjsonFile (after updateLocalHEXJSON w) = Holding data.
Proof.
  intros Hfile Hdisk Hsame. pose proof (persisted_Holding _ _ Hfile) as Hload.
  unfold after.
  destruct data as [|e front].
  - destruct Hsame as [Hfetch|(? & ? & ? & [=] & _)].
    rewrite (update_bootstrap _ _ Hload Hfetch).
    by rewrite (save_ok _ _ Hdisk).
  - assert (exists rest, fulldata w = (e :: rest, None)) as [rest Hfetch].
    { destruct Hsame as [Hfetch|(e' & front' & rest & [= -> ->] & Hfetch)];
        eauto. }
    rewrite (update_incremental _ _ _ _ Hload Hfetch).
    by rewrite collectNewEntries_cons_stop by lia.
Qed.

(** C3.  Idempotence of the refresh.  (1) When the local history is not
    empty and the day of its first entry is at least every day of the
    remote sequence, the refresh changes nothing: no error, no write, the
    persisted history is the local one.  (2) Running the refresh a second
    time against the same remote sequence leaves the history file as the
    first run left it, whatever the first run did. *)
Theorem updateLocalHEXJSON_idempotent :
  (forall (w : Env) (first : HEXJSONEntry) (others remoteData : HEXJSON),
      result loadLocalHEXJSON w = (first :: others, None) ->
      fulldata w = (remoteData, None) ->
      Forall (fun e => CurrentDay e <= CurrentDay first) remoteData ->
      updateLocalHEXJSON w = (None, w)
      /\ persisted (after updateLocalHEXJSON w) = first :: others)
  /\ (forall w : Env,
        hexjsonFile (after updateLocalHEXJSON (after updateLocalHEXJSON w))
        = hexjsonFile (after updateLocalHEXJSON w)
        /\ persisted (after updateLocalHEXJSON (after updateLocalHEXJSON w))
           = persisted (after updateLocalHEXJSON w)).
Proof.
  split.
  - intros w first others remoteData Hload Hfetch Hbelow.
    assert (updateLocalHEXJSON w = (None, w)) as Hupd.
    { rewrite (update_incremental _ _ _ _ Hload Hfetch).
      by rewrite collectNewEntries_none. }
    split; [done|]. unfold after. rewrite Hupd. simpl.
    unfold persisted. by rewrite Hload.
  - intros w.
    cut (hexjsonFile (after updateLocalHEXJSON (after updateLocalHEXJSON w))
         = hexjsonFile (after updateLocalHEXJSON w)).
    { intros H. split; [done|].
      rewrite !persisted_file. by rewrite H. }
    remember (after updateLocalHEXJSON w) as w1 eqn:Hw1.
    unfold after in Hw1.
    destruct (update_cases w)
      as [[err Hupd]
         |[(Hload & Hupd & Hok)
          |(first & others & e & newer & Hload & Hok & Hscan & Hupd)]];
      rewrite Hupd in Hw1.
    + simpl in Hw1. subst w1. unfold after. by rewrite Hupd.
    + unfold saveLocalHEXJSON in Hw1.
      destruct (diskFault w) as [[err|err]|] eqn:Hdisk; simpl in Hw1; subst w1.
      * unfold after. rewrite Hupd. unfold saveLocalHEXJSON. by rewrite Hdisk.
      * by rewrite (update_on_broken_file _ "unexpected EOF") by (by left).
      * apply update_caught_up; [done|done|]. left. simpl.
        unfold result, fetchHEXJSON in *. by destruct (fulldata w) as [? [?|]].
    + unfold saveLocalHEXJSON in Hw1.
      destruct (diskFault w) as [[err|err]|] eqn:Hdisk; simpl in Hw1; subst w1.
      * unfold after. rewrite Hupd. unfold saveLocalHEXJSON. by rewrite Hdisk.
      * by rewrite (update_on_broken_file _ "unexpected EOF") by (by left).
      * apply update_caught_up; [done|done|]. right. simpl.
        destruct (collectNewEntries_prefix (CurrentDay first)
                    (fst (result fetchHEXJSON w))) as (rest & Hsplit & _).
        rewrite Hscan in Hsplit.
        exists e, (newer ++ first :: others), (newer ++ rest).
        split; [done|].
        unfold result, fetchHEXJSON in *.
        destruct (fulldata w) as [remoteData [?|]]; [done|].
        simpl in Hsplit. by rewrite Hsplit.
Qed.

Lemma updateLocalHEXJSON_idempotent_witness :
  updateLocalHEXJSON
    (historyEnv (Holding (map entryOn [102; 101])) (map entryOn [102; 101; 100]))
  = (None,
     historyEnv (Holding (map entryOn [102; 101])) (map entryOn [102; 101; 100]))
  /\ persisted
       (after updateLocalHEXJSON
          (historyEnv (Holding (map entryOn [102; 101]))
                      (map entryOn [102; 101; 100])))
     = map entryOn [102; 101].
Proof.
  apply (proj1 updateLocalHEXJSON_idempotent
           (historyEnv (Holding (map entryOn [102; 101]))
                       (map entryOn [102; 101; 100]))
           (entryOn 102) [entryOn 101] (map entryOn [102; 101; 100])
           eq_refl eq_refl).
  repeat (constructor; [simpl; lia|]). constructor.
Defined.

(** ** The early exit *)

(** C4.  There are a non-empty local history and a remote sequence that
    is not day-descending, with an entry [dropped] standing behind an
    entry [stale] of older (and not newer than local) day, such that
    [dropped] is strictly newer than everything local and yet is absent
    from the history persisted by the refresh.  Here: local day 100
    against remote days 102, 99, 101; day 101 is lost. *)
Theorem early_exit_drops_newer_entry :
  exists (first : HEXJSONEntry) (others remoteData ahead between behind : HEXJSON)
         (stale dropped : HEXJSONEntry),
    remoteData = ahead ++ stale :: between ++ dropped :: behind
    /\ ~ dayDescending remoteData
    /\ CurrentDay stale <= CurrentDay first
    /\ CurrentDay stale <= CurrentDay dropped
    /\ CurrentDay first < CurrentDay dropped
    /\ result updateLocalHEXJSON
         (historyEnv (Holding (first :: others)) remoteData) = None
    /\ ~ In dropped
         (persisted (after updateLocalHEXJSON
                       (historyEnv (Holding (first :: others)) remoteData))).
Proof.
  exists (entryOn 100), [], (map entryOn [102; 99; 101]),
    [entryOn 102], [], [], (entryOn 99), (entryOn 101).
  split; [reflexivity|]. split.
  { intros Hsorted.
    apply StronglySorted_cons in Hsorted as [_ Hsorted].
    apply StronglySorted_cons in Hsorted as [Hall _].
    apply Forall_cons in Hall as [Hlt _]. simpl in Hlt. lia. }
  repeat (split; [simpl; lia || reflexivity|]).
  cbv [persisted after result]. simpl.
  intros [Heq|[Heq|[]]]; apply (f_equal CurrentDay) in Heq; simpl in Heq; lia.
Qed.

(** ** When the file is written *)

(** C5, as amended.  With a non-empty local history, a refresh after
    which the persisted history equals the local one has written
    nothing: the world is as it was.  With an empty local history the
    refresh is the call [saveLocalHEXJSON remoteData], whatever
    [remoteData] holds.  With a non-empty one, [saveLocalHEXJSON] is
    called exactly when the scan collected an entry. *)
Theorem updateLocalHEXJSON_write_policy (w : Env) (localData : HEXJSON) :
  result loadLocalHEXJSON w = (localData, None) ->
  (localData <> [] ->
   persisted (after updateLocalHEXJSON w) = localData ->
   after updateLocalHEXJSON w = w)
  /\ (forall remoteData : HEXJSON,
        localData = [] ->
        fulldata w = (remoteData, None) ->
        updateLocalHEXJSON w = saveLocalHEXJSON remoteData w)
  /\ (forall (first : HEXJSONEntry) (others remoteData : HEXJSON),
        localData = first :: others ->
        fulldata w = (remoteData, None) ->
        updateLocalHEXJSON w =
          match collectNewEntries (CurrentDay first) remoteData [] with
          | [] => (None, w)
          | newEntries => saveLocalHEXJSON (newEntries ++ localData) w
          end).
Proof.
  intros Hload. split; [|split].
  - intros Hne Hsame.
    destruct (update_cases w)
      as [[err Hupd]
         |[(Hload' & _)
          |(first & others & e & newer & Hload' & _ & _ & Hupd)]].
    + unfold after. by rewrite Hupd.
    + congruence.
    + rewrite Hload in Hload'. injection Hload' as ->.
      unfold after in Hsame |- *. rewrite Hupd in Hsame |- *.
      fold (after (saveLocalHEXJSON ((e :: newer) ++ first :: others)) w) in Hsame.
      rewrite persisted_after_save in Hsame.
      unfold saveLocalHEXJSON.
      destruct (diskFault w) as [[?|?]|] eqn:Hdisk; [done|done|].
      apply (f_equal length) in Hsame. simpl in Hsame.
      rewrite length_app in Hsame. simpl in Hsame. lia.
  - intros remoteData -> Hfetch. by apply update_bootstrap.
  - intros first others remoteData -> Hfetch. by apply update_incremental.
Qed.

Lemma updateLocalHEXJSON_write_policy_witness :
  after updateLocalHEXJSON
    (historyEnv (Holding (map entryOn [102; 101])) (map entryOn [102; 101; 100]))
  = historyEnv (Holding (map entryOn [102; 101])) (map entryOn [102; 101; 100]).
Proof.
  apply (proj1 (updateLocalHEXJSON_write_policy
                  (historyEnv (Holding (map entryOn [102; 101]))
                              (map entryOn [102; 101; 100]))
                  (map entryOn [102; 101]) eq_refl)).
  - discriminate.
  - reflexivity.
Defined.

(** C5 as stated fails on a first start against an empty feed: no history
    file, the endpoint answers an empty array.  The loaded local sequence
    is empty, the merge result is empty too, and the file is created and
    written all the same. *)
Lemma bootstrap_writes_without_new_entries :
  result loadLocalHEXJSON (historyEnv Missing []) = ([], None)
  /\ result updateLocalHEXJSON (historyEnv Missing []) = None
  /\ persisted (after updateLocalHEXJSON (historyEnv Missing [])) = []
  /\ hexjsonFile (historyEnv Missing []) = Missing
  /\ hexjsonFile (after updateLocalHEXJSON (historyEnv Missing [])) = Holding []
  /\ created (historyEnv Missing []) = []
  /\ created (after updateLocalHEXJSON (historyEnv Missing [])) = [hexjsonPath].
Proof. repeat split; reflexivity. Qed.

(** ** The configuration file *)

(** C8.  [loadConfig] hands back the default of 15 minutes, with no
    error, when the file is absent and when it decodes to a non-positive
    interval; these are the only two substitutions: a positive decoded
    interval comes back as it is, and a file that cannot be opened or
    decoded yields the error with the zero [Config]. *)
Theorem loadConfig_default (w : Env) :
  defaultLiveDataFrequency = 15
  /\ (configFile w = Missing ->
      loadConfig w = (({| LiveDataFrequency := 15 |}, None), w))
  /\ (forall c : Config,
        configFile w = Holding c -> LiveDataFrequency c <= 0 ->
        loadConfig w = (({| LiveDataFrequency := 15 |}, None), w))
  /\ (forall c : Config,
        configFile w = Holding c -> 0 < LiveDataFrequency c ->
        loadConfig w = ((c, None), w))
  /\ (forall e : error,
        configFile w = Unreadable e \/ configFile w = Garbled e ->
        loadConfig w = (({| LiveDataFrequency := 0 |}, Some e), w)).
Proof.
  unfold loadConfig. split; [done|].
  split; [by intros ->|].
  split; [|split].
  - intros c -> Hle.
    by destruct (Z.leb_spec (LiveDataFrequency c) 0); [|lia].
  - intros c -> Hlt.
    by destruct (Z.leb_spec (LiveDataFrequency c) 0); [lia|].
  - by intros e [-> | ->].
Qed.

Lemma loadConfig_default_witness :
  loadConfig (historyEnv Missing [])
  = (({| LiveDataFrequency := 15 |}, None), historyEnv Missing [])
  /\ loadConfig (setConfigFile (Holding {| LiveDataFrequency := -3 |})
                               configPath (historyEnv Missing []))
     = (({| LiveDataFrequency := 15 |}, None),
        setConfigFile (Holding {| LiveDataFrequency := -3 |})
                      configPath (historyEnv Missing [])).
Proof.
  split.
  - apply (proj1 (proj2 (loadConfig_default (historyEnv Missing [])))).
    reflexivity.
  - apply (proj1 (proj2 (proj2
             (loadConfig_default
                (setConfigFile (Holding {| LiveDataFrequency := -3 |})
                               configPath (historyEnv Missing [])))))
             {| LiveDataFrequency := -3 |}).
    + reflexivity.
    + simpl. lia.
Defined.

(** ** The configuration manager *)

Lemma notifySubscribers_frame (chans : list bool) (i : Z) (p : Proc) :
  latestLiveData (snd (notifySubscribers i chans p)) = latestLiveData p
  /\ configManager (snd (notifySubscribers i chans p)) = configManager p
  /\ liveFetches (snd (notifySubscribers i chans p)) = liveFetches p.
Proof.
  revert i p. induction chans as [|occupied rest IH]; intros i p; [done|].
  simpl.
  destruct (notifySubscribers (i + 1) rest
              (if occupied
               then println [Text "Warning: Frequency change channel full for subscriber"; Int i] p
               else println [Text "Sent frequency change signal to subscriber"; Int i] p))
    as [rest' p'] eqn:Hrest.
  simpl.
  specialize (IH (i + 1)
                (if occupied
                 then println [Text "Warning: Frequency change channel full for subscriber"; Int i] p
                 else println [Text "Sent frequency change signal to subscriber"; Int i] p)).
  rewrite Hrest in IH. simpl in IH.
  by destruct occupied.
Qed.

Lemma Get_Set (frequency : Z) (p : Proc) :
  GetLiveDataFrequency (SetLiveDataFrequency frequency p) = frequency.
Proof.
  unfold SetLiveDataFrequency, GetLiveDataFrequency.
  set (p1 := println _ _).
  pose proof (notifySubscribers_frame (changeChans (configManager p1)) 0 p1)
    as (_ & Hcm & _).
  destruct (notifySubscribers _ _ _) as [chans p2]. simpl in *.
  by rewrite Hcm.
Qed.

(** C10.  A config file that exists but does not decode makes
    [loadConfig] return the decoder's error with the zero [Config], which
    is not the default; [main] then logs the error, puts the default in
    place itself and hands it to [SetLiveDataFrequency], so the process
    starts with 15 minutes.  An error-free result of [loadConfig] comes
    only from an absent file (the default) or from a decoded one (the
    default for a non-positive interval, the decoded value otherwise). *)
Theorem loadConfig_malformed (w : Env) (p : Proc) (e : error) :
  configFile w = Garbled e ->
  loadConfig w = ((zeroConfig, Some e), w)
  /\ LiveDataFrequency zeroConfig = 0
  /\ zeroConfig <> {| LiveDataFrequency := defaultLiveDataFrequency |}
  /\ mainLoadConfig (w, p)
     = (w, SetLiveDataFrequency defaultLiveDataFrequency
             (println [Text "Error loading config:"; Err e] p))
  /\ GetLiveDataFrequency (snd (mainLoadConfig (w, p))) = 15
  /\ (forall (w' : Env) (c : Config),
        result loadConfig w' = (c, None) ->
        (configFile w' = Missing
         /\ c = {| LiveDataFrequency := defaultLiveDataFrequency |})
        \/ (exists c0 : Config,
              configFile w' = Holding c0
              /\ ((LiveDataFrequency c0 <= 0
                   /\ c = {| LiveDataFrequency := defaultLiveDataFrequency |})
                  \/ (0 < LiveDataFrequency c0 /\ c = c0)))).
Proof.
  intros Hfile.
  assert (forall (w' : Env) (c : Config),
        result loadConfig w' = (c, None) ->
        (configFile w' = Missing
         /\ c = {| LiveDataFrequency := defaultLiveDataFrequency |})
        \/ (exists c0 : Config,
              configFile w' = Holding c0
              /\ ((LiveDataFrequency c0 <= 0
                   /\ c = {| LiveDataFrequency := defaultLiveDataFrequency |})
                  \/ (0 < LiveDataFrequency c0 /\ c = c0)))) as Honly.
  { intros w' c. unfold result, loadConfig.
    destruct (configFile w') as [|e'|e'|c0]; simpl; intros [=]; subst.
    - by left.
    - right. exists c0. split; [done|].
      destruct (Z.leb_spec (LiveDataFrequency c0) 0); [left|right]; done. }
  assert (loadConfig w = ((zeroConfig, Some e), w)) as Hload
    by (unfold loadConfig; by rewrite Hfile).
  assert (mainLoadConfig (w, p)
          = (w, SetLiveDataFrequency defaultLiveDataFrequency
                  (println [Text "Error loading config:"; Err e] p))) as Hmain
    by (unfold mainLoadConfig; by rewrite Hload).
  repeat split; [done|done|done| |done].
  rewrite Hmain. simpl. by rewrite Get_Set.
Qed.

Lemma loadConfig_malformed_witness :
  loadConfig (setConfigFile (Garbled "unexpected end of JSON input")
                            configPath (historyEnv Missing []))
  = ((zeroConfig, Some "unexpected end of JSON input"%string),
     setConfigFile (Garbled "unexpected end of JSON input")
                   configPath (historyEnv Missing []))
  /\ GetLiveDataFrequency
       (snd (mainLoadConfig
               (setConfigFile (Garbled "unexpected end of JSON input")
                              configPath (historyEnv Missing []),
                initialProc))) = 15.
Proof.
  pose proof (loadConfig_malformed
                (setConfigFile (Garbled "unexpected end of JSON input")
                               configPath (historyEnv Missing []))
                initialProc "unexpected end of JSON input" eq_refl)
    as (Hload & _ & _ & _ & Hget & _).
  exact (conj Hload Hget).
Defined.

(** ** What the steps of the program leave alone *)

Lemma receiveChange_frame (ch : nat) (p p' : Proc) :
  receiveChange ch p = Some p' ->
  GetLiveDataFrequency p' = GetLiveDataFrequency p
  /\ latestLiveData p' = latestLiveData p
  /\ liveFetches p' = liveFetches p.
Proof.
  unfold receiveChange.
  destruct (changeChans (configManager p) !! ch) as [[|]|]; intros [=]; by subst.
Qed.

Lemma rearmFetcher_Ran (p p' : Proc) (g g' : Fetcher) :
  rearmFetcher p g = Ran (p', g') ->
  p' = p /\ 0 < minutes (GetLiveDataFrequency p)
  /\ g' = {| frequency := GetLiveDataFrequency p;
             ticker := {| interval := minutes (GetLiveDataFrequency p);
                          running := true |};
             changeCh := changeCh g; fetching := false |}.
Proof.
  unfold rearmFetcher, Reset.
  destruct (Z.leb_spec (minutes (GetLiveDataFrequency p)) 0); intros [=].
  by subst.
Qed.

Lemma rearmFetcher_positive (p : Proc) (g : Fetcher) :
  0 < minutes (GetLiveDataFrequency p) ->
  rearmFetcher p g
  = Ran (p, {| frequency := GetLiveDataFrequency p;
               ticker := {| interval := minutes (GetLiveDataFrequency p);
                            running := true |};
               changeCh := changeCh g; fetching := false |}).
Proof.
  intros Hpos. unfold rearmFetcher, Reset.
  by destruct (Z.leb_spec (minutes (GetLiveDataFrequency p)) 0); [lia|].
Qed.

Lemma rearmTab_Ran (p p' : Proc) (shown : LiveData) (g g' : Tab) :
  rearmTab p shown g = Ran (p', g') -> p' = p.
Proof.
  unfold rearmTab, Reset.
  destruct (Z.leb_spec (minutes (GetLiveDataFrequency p)) 0); intros [=].
  by subst.
Qed.

Lemma fetcherStep_frequency (ev : FetcherEvent) (p p' : Proc) (g g' : Fetcher) :
  fetcherStep ev (p, g) = Ran (p', g') ->
  GetLiveDataFrequency p' = GetLiveDataFrequency p.
Proof.
  unfold fetcherStep.
  destruct ev as [|data [err|]|], (fetching g); try discriminate.
  - destruct (running (ticker g)); intros [=]; by subst.
  - by intros (-> & _)%rearmFetcher_Ran.
  - by intros (-> & _)%rearmFetcher_Ran.
  - destruct (receiveChange (changeCh g) p) as [p1|] eqn:Hrecv; [|discriminate].
    intros (-> & _)%rearmFetcher_Ran.
    apply receiveChange_frame in Hrecv as (Hfreq & _). exact Hfreq.
Qed.

Lemma tabStep_frame (ev : TabEvent) (p p' : Proc) (g g' : Tab) :
  tabStep ev (p, g) = Ran (p', g') ->
  GetLiveDataFrequency p' = GetLiveDataFrequency p
  /\ latestLiveData p' = latestLiveData p
  /\ liveFetches p' = liveFetches p.
Proof.
  unfold tabStep.
  destruct (returned g); [discriminate|].
  destruct ev.
  - destruct (running (tabTicker g)); [|discriminate].
    by intros ->%rearmTab_Ran.
  - destruct (receiveChange (tabChangeCh g) p) as [p1|] eqn:Hrecv; [|discriminate].
    intros ->%rearmTab_Ran.
    apply receiveChange_frame in Hrecv. exact Hrecv.
  - destruct (cancelled g); intros [=]; by subst.
Qed.

Lemma startFetcher_frequency (p p' : Proc) (g : Fetcher) :
  startFetcher p = Ran (p', g) ->
  GetLiveDataFrequency p' = GetLiveDataFrequency p.
Proof.
  unfold startFetcher.
  destruct (NewTicker _); intros [=]; by subst.
Qed.

Lemma startTab_frequency (p p' : Proc) (g : Tab) :
  startTab p = Ran (p', g) ->
  GetLiveDataFrequency p' = GetLiveDataFrequency p.
Proof.
  unfold startTab.
  destruct (NewTicker _); intros [=]; by subst.
Qed.

Lemma mainLoadConfig_positive (st : Env * Proc) :
  0 < GetLiveDataFrequency (snd (mainLoadConfig st)).
Proof.
  destruct st as [w p]. unfold mainLoadConfig, loadConfig.
  destruct (configFile w) as [|e|e|c]; simpl; rewrite Get_Set; try done.
  destruct (Z.leb_spec (LiveDataFrequency c) 0); simpl; [done|lia].
Qed.

Lemma saveFrequencyTapped_positive (text : string) (st : Env * Proc) :
  0 < GetLiveDataFrequency (snd st) ->
  0 < GetLiveDataFrequency (snd (saveFrequencyTapped text st)).
Proof.
  destruct st as [w p]. unfold saveFrequencyTapped. intros Hpos.
  destruct (Atoi text) as [n err].
  destruct (bool_decide (err <> None)); simpl; [done|].
  destruct (Z.leb_spec n 0); simpl; [done|].
  destruct (saveConfig {| LiveDataFrequency := n |} w) as [[e|] w']; simpl.
  - done.
  - by rewrite Get_Set.
Qed.

Lemma startup_positive (w : Env) (response : LiveData * option error) :
  0 < GetLiveDataFrequency (snd (startup w response)).
Proof.
  unfold startup.
  pose proof (mainLoadConfig_positive (mainUpdateHistory (w, initialProc))) as Hpos.
  destruct (mainLoadConfig _) as [w' p]. simpl in *.
  unfold mainInitialFetch. by destruct response as [data [err|]].
Qed.

Lemma progStep_positive (st st' : Env * Proc) :
  progStep st st' ->
  0 < GetLiveDataFrequency (snd st) -> 0 < GetLiveDataFrequency (snd st').
Proof.
  intros Hstep Hpos. destruct Hstep as
    [text st|w p p' g Hs|ev w p g p' g' Hs|w p p' g Hs|ev w p g p' g' Hs];
    simpl in *.
  - by apply saveFrequencyTapped_positive.
  - by rewrite (startFetcher_frequency _ _ _ Hs).
  - by rewrite (fetcherStep_frequency _ _ _ _ _ Hs).
  - by rewrite (startTab_frequency _ _ _ Hs).
  - by apply tabStep_frame in Hs as (-> & _).
Qed.

(** C9, as amended.  [SetLiveDataFrequency] stores whatever it is given,
    so [GetLiveDataFrequency] afterwards returns the argument, positive
    or not.  Positivity is kept by the callers: the manager is built with
    15, [main] seeds it from [loadConfig] or with the default, and the
    settings handler refuses input that is not a positive integer; hence
    the stored interval is strictly positive in every state the program
    reaches. *)
Theorem interval_positive_by_callers :
  (forall (frequency : Z) (p : Proc),
      GetLiveDataFrequency (SetLiveDataFrequency frequency p) = frequency)
  /\ 0 < GetLiveDataFrequency initialProc
  /\ (forall st : Env * Proc,
        reachable st -> 0 < GetLiveDataFrequency (snd st)).
Proof.
  split; [exact Get_Set|]. split; [done|].
  induction 1 as [w response|st st' _ IH Hstep].
  - apply startup_positive.
  - by apply (progStep_positive st).
Qed.

Lemma interval_positive_by_callers_witness :
  0 < GetLiveDataFrequency (snd (saveFrequencyTapped "30" coldStart)).
Proof.
  apply (proj2 (proj2 interval_positive_by_callers)
           (saveFrequencyTapped "30" coldStart)).
  apply (reach_step coldStart).
  - apply reach_startup.
  - apply step_settings.
Defined.

(** C9 as stated fails at the setter itself: called with 0 on the freshly
    built manager, whose interval is positive, it leaves 0 behind.  The
    same happens with a negative argument. *)
Lemma SetLiveDataFrequency_stores_nonpositive :
  0 < GetLiveDataFrequency initialProc
  /\ GetLiveDataFrequency (SetLiveDataFrequency 0 initialProc) = 0
  /\ GetLiveDataFrequency (SetLiveDataFrequency (-5) initialProc) = -5
  /\ ~ 0 < GetLiveDataFrequency (SetLiveDataFrequency 0 initialProc).
Proof. repeat split; try reflexivity. vm_compute. discriminate. Qed.

(** ** The fetcher goroutine *)

(** C6, as amended.  When [fetchLiveData] returns an error and the
    configured interval makes a positive duration, the fetcher logs the
    error and goes back to its [select]: the cached snapshot, the
    configuration manager and the count of fetches are untouched, and the
    ticker is re-armed with the interval configured at that moment, which
    is exactly what a successful fetch does.  The ticker keeps its
    previous interval whenever it had been armed with the value that is
    still configured; more precisely, the re-armed ticker is the
    previous one exactly when the previous one was running with the
    duration of the interval now configured. *)
Theorem failed_fetch_rearms_with_configured_interval
    (p : Proc) (g : Fetcher) (data : LiveData) (err : error) :
  fetching g = true ->
  0 < minutes (GetLiveDataFrequency p) ->
  fetcherStep (FetchReturns data (Some err)) (p, g)
  = Ran (println [Text "Error fetching live data:"; Err err] p,
         {| frequency := GetLiveDataFrequency p;
            ticker := {| interval := minutes (GetLiveDataFrequency p);
                         running := true |};
            changeCh := changeCh g; fetching := false |})
  /\ latestLiveData (println [Text "Error fetching live data:"; Err err] p)
     = latestLiveData p
  /\ configManager (println [Text "Error fetching live data:"; Err err] p)
     = configManager p
  /\ liveFetches (println [Text "Error fetching live data:"; Err err] p)
     = liveFetches p
  /\ (forall fresh : LiveData,
        exists p' : Proc,
          fetcherStep (FetchReturns fresh None) (p, g)
          = Ran (p', {| frequency := GetLiveDataFrequency p;
                        ticker := {| interval := minutes (GetLiveDataFrequency p);
                                     running := true |};
                        changeCh := changeCh g; fetching := false |}))
  /\ (ticker g = {| interval := minutes (GetLiveDataFrequency p);
                    running := true |} ->
      forall p' g',
        fetcherStep (FetchReturns data (Some err)) (p, g) = Ran (p', g') ->
        ticker g' = ticker g)
  /\ (forall p' g',
        fetcherStep (FetchReturns data (Some err)) (p, g) = Ran (p', g') ->
        (ticker g' = ticker g
         <-> ticker g = {| interval := minutes (GetLiveDataFrequency p);
                           running := true |})).
Proof.
  intros Hfetching Hpos.
  assert (fetcherStep (FetchReturns data (Some err)) (p, g)
          = Ran (println [Text "Error fetching live data:"; Err err] p,
                 {| frequency := GetLiveDataFrequency p;
                    ticker := {| interval := minutes (GetLiveDataFrequency p);
                                 running := true |};
                    changeCh := changeCh g; fetching := false |})) as Hstep.
  { unfold fetcherStep. rewrite Hfetching.
    by rewrite rearmFetcher_positive. }
  split; [exact Hstep|]. do 3 (split; [done|]).
  split; [|split].
  - intros fresh. eexists. unfold fetcherStep. rewrite Hfetching.
    by rewrite rearmFetcher_positive.
  - intros Harmed p' g' Hstep'. rewrite Hstep in Hstep'.
    injection Hstep' as _ <-. by rewrite Harmed.
  - intros p' g' Hstep'. rewrite Hstep in Hstep'.
    injection Hstep' as _ <-. cbn [ticker].
    split; [intros Hsame; by rewrite <- Hsame|intros Harmed; by rewrite Harmed].
Qed.


Lemma failed_fetch_rearms_with_configured_interval_witness :
  fetcherStep (FetchReturns zeroLiveData (Some "timeout"%string))
    (initialProc,
     {| frequency := 15; ticker := {| interval := minutes 15; running := true |};
        changeCh := 0; fetching := true |})
  = Ran (println [Text "Error fetching live data:"; Err "timeout"] initialProc,
         {| frequency := 15; ticker := {| interval := minutes 15; running := true |};
            changeCh := 0; fetching := false |}).
Proof.
  apply (failed_fetch_rearms_with_configured_interval initialProc
           {| frequency := 15;
              ticker := {| interval := minutes 15; running := true |};
              changeCh := 0; fetching := true |}
           zeroLiveData "timeout").
  - reflexivity.
  - reflexivity.
Defined.

(** C6 as stated fails when the user saves a new frequency while the
    fetch is under way.  From a first start the fetcher's ticker is armed
    with 15 minutes; its tick fires and [fetchLiveData] is called; "30"
    is saved in the settings tab; the fetch then fails.  The ticker is
    re-armed with 30 minutes, not with the 15 it had. *)
Lemma failed_fetch_picks_up_new_interval :
  exists (p0 p p' : Proc) (g0 g g' : Fetcher) (w : Env),
    startFetcher (snd coldStart) = Ran (p0, g0)
    /\ schedule [Goroutine TickerFires; Settings "30"] (fst coldStart) (p0, g0)
       = Ran (w, (p, g))
    /\ fetching g = true
    /\ ticker g = {| interval := 15 * Minute; running := true |}
    /\ fetcherStep (FetchReturns zeroLiveData (Some "timeout"%string)) (p, g)
       = Ran (p', g')
    /\ ticker g' = {| interval := 30 * Minute; running := true |}
    /\ interval (ticker g') <> interval (ticker g).
Proof.
  do 7 eexists.
  split; [vm_compute; reflexivity|].
  split; [vm_compute; reflexivity|].
  split; [reflexivity|].
  split; [reflexivity|].
  split; [vm_compute; reflexivity|].
  split; [reflexivity|].
  vm_compute. discriminate.
Qed.

(** The hypothesis on the duration cannot be dropped: 153722868 minutes
    exceed the 64-bit range of nanoseconds, the product wraps to a
    negative duration and [Ticker.Reset] panics. *)
Remark rearm_panics_on_overflow :
  minutes 153722868 < 0
  /\ exists (p0 : Proc) (g0 : Fetcher),
       startFetcher (snd coldStart) = Ran (p0, g0)
       /\ schedule [Goroutine TickerFires; Settings "153722868";
                    Goroutine (FetchReturns zeroLiveData (Some "timeout"%string))]
            (fst coldStart) (p0, g0)
          = Panics "non-positive interval for Ticker.Reset".
Proof.
  split; [by vm_compute|].
  do 2 eexists. split; [vm_compute; reflexivity|].
  vm_compute. reflexivity.
Qed.

(** ** The Live Data tab goroutine *)

Lemma tabRun_frame (evs : list TabEvent) (p p' : Proc) (g g' : Tab) :
  tabRun evs (p, g) = Ran (p', g') ->
  latestLiveData p' = latestLiveData p /\ liveFetches p' = liveFetches p.
Proof.
  revert p g. induction evs as [|ev evs IH]; intros p g; cbn [tabRun].
  - intros [=]; by subst.
  - destruct (tabStep ev (p, g)) as [[p1 g1]| |] eqn:Hstep; try discriminate.
    intros Hrun. apply IH in Hrun as [-> ->].
    by apply tabStep_frame in Hstep as (_ & -> & ->).
Qed.

(** C7.  A tab goroutine waiting in its [select] whose context is
    cancelled takes the [ctx.Done()] case: it logs, its deferred
    [ticker.Stop()] releases the ticker, and it has returned; from there
    no case of the [select] can run any more, whatever the shared state.
    Along any further steps of that goroutine, and in any single step it
    takes from any shared state, no [fetchLiveData] call is made and
    [latestLiveData] is not assigned.  (The fetcher goroutine of
    [main] has no cancellation case at all.) *)
Theorem tab_cancellation_is_final (p : Proc) (g : Tab) :
  returned g = false ->
  tabStep ContextDone (p, cancel g)
  = Ran (println [Text "Live Data tab ticker stopped"] p,
         {| tabFrequency := tabFrequency g;
            tabTicker := {| interval := interval (tabTicker g); running := false |};
            tabChangeCh := tabChangeCh g; cancelled := true;
            returned := true; labels := labels g |})
  /\ (forall (ev : TabEvent) (q : Proc),
        tabStep ev
          (q, {| tabFrequency := tabFrequency g;
                 tabTicker := {| interval := interval (tabTicker g);
                                 running := false |};
                 tabChangeCh := tabChangeCh g; cancelled := true;
                 returned := true; labels := labels g |})
        = Blocked)
  /\ (forall (evs : list TabEvent) (p' : Proc) (g' : Tab),
        tabRun evs (p, cancel g) = Ran (p', g') ->
        latestLiveData p' = latestLiveData p
        /\ liveFetches p' = liveFetches p)
  /\ (forall (ev : TabEvent) (q q' : Proc) (h h' : Tab),
        tabStep ev (q, h) = Ran (q', h') ->
        latestLiveData q' = latestLiveData q
        /\ liveFetches q' = liveFetches q).
Proof.
  intros Harmed. split; [|split; [|split]].
  - unfold tabStep, cancel. simpl. by rewrite Harmed.
  - by intros ev q.
  - intros evs p' g'. apply tabRun_frame.
  - intros ev q q' h h' Hstep. by apply tabStep_frame in Hstep as (_ & ? & ?).
Qed.

Lemma tab_cancellation_is_final_witness :
  exists (p : Proc) (g : Tab),
    startTab (snd coldStart) = Ran (p, g)
    /\ tabStep ContextDone (p, cancel g)
       = Ran (println [Text "Live Data tab ticker stopped"] p,
              {| tabFrequency := 15;
                 tabTicker := {| interval := 15 * Minute; running := false |};
                 tabChangeCh := 0; cancelled := true;
                 returned := true; labels := zeroLiveData |}).
Proof.
  eexists. eexists. split; [vm_compute; reflexivity|].
  apply (tab_cancellation_is_final _
           {| tabFrequency := 15;
              tabTicker := {| interval := 15 * Minute; running := true |};
              tabChangeCh := 0; cancelled := false;
              returned := false; labels := zeroLiveData |}).
  reflexivity.
Defined.

(** * Further properties of the code *)

(** ** Fan-out of a frequency change *)

Lemma notifySubscribers_closed_form (chans : list bool) (i : Z) (p : Proc) :
  notifySubscribers i chans p
  = (map (fun _ => true) chans,
     {| latestLiveData := latestLiveData p;
        configManager := configManager p;
        logged := logged p
                  ++ imap (fun k occupied => notifyLine (i + Z.of_nat k) occupied) chans;
        liveFetches := liveFetches p |}).
Proof.
  revert i p. induction chans as [|occupied rest IH]; intros i p.
  - simpl. rewrite app_nil_r. by destruct p.
  - cbn [notifySubscribers]. rewrite IH. simpl. f_equal. f_equal.
    + by destruct occupied.
    + by destruct occupied.
    + replace (i + Z.of_nat 0) with i by lia.
      assert (imap (fun k occ => notifyLine (i + 1 + Z.of_nat k) occ) rest
              = imap ((fun k occ => notifyLine (i + Z.of_nat k) occ) ∘ S) rest)
        as ->.
      { apply imap_ext. intros k occ _. simpl. f_equal. lia. }
      destruct occupied; simpl; by rewrite <- app_assoc.
    + by destruct occupied.
Qed.

Lemma SetLiveDataFrequency_closed_form (frequency : Z) (p : Proc) :
  SetLiveDataFrequency frequency p
  = {| latestLiveData := latestLiveData p;
       configManager :=
         {| config := {| LiveDataFrequency := frequency |};
            changeChans := map (fun _ => true) (changeChans (configManager p)) |};
       logged := logged p
                 ++ [Text "Set LiveDataFrequency to"; Int frequency]
                 :: imap (fun k occupied => notifyLine (Z.of_nat k) occupied)
                      (changeChans (configManager p));
       liveFetches := liveFetches p |}.
Proof.
  unfold SetLiveDataFrequency. rewrite notifySubscribers_closed_form.
  unfold withConfigManager, println. simpl. f_equal.
  by rewrite <- app_assoc.
Qed.

Lemma all_true_lookup (chans : list bool) (ch : nat) :
  (ch < length chans)%nat ->
  map (fun _ : bool => true) chans !! ch = Some true.
Proof.
  intros Hch.
  destruct (lookup_lt_is_Some_2 chans ch Hch) as [occ Hocc].
  change (map (fun _ : bool => true) chans)
    with ((fun _ : bool => true) <$> chans).
  by rewrite list_lookup_fmap, Hocc.
Qed.

(** X1.  Fan-out of [SetLiveDataFrequency].  The call replaces the stored
    interval and touches neither the cached snapshot nor the fetch
    count; no subscriber is added or removed; the log gains the "Set"
    line followed by one line per subscriber, in subscription order,
    each the "Sent" or the "Warning" line of that subscriber; and every
    subscriber has a change signal to take afterwards. *)
Theorem SetLiveDataFrequency_fanout (frequency : Z) (p : Proc) :
  GetLiveDataFrequency (SetLiveDataFrequency frequency p) = frequency
  /\ latestLiveData (SetLiveDataFrequency frequency p) = latestLiveData p
  /\ liveFetches (SetLiveDataFrequency frequency p) = liveFetches p
  /\ length (changeChans (configManager (SetLiveDataFrequency frequency p)))
     = length (changeChans (configManager p))
  /\ (exists lines : list LogLine,
        logged (SetLiveDataFrequency frequency p)
        = logged p ++ [Text "Set LiveDataFrequency to"; Int frequency] :: lines
        /\ length lines = length (changeChans (configManager p))
        /\ (forall (i : nat) (line : LogLine),
              lines !! i = Some line ->
              line = notifyLine (Z.of_nat i) false
              \/ line = notifyLine (Z.of_nat i) true))
  /\ (forall ch : nat,
        (ch < length (changeChans (configManager p)))%nat ->
        is_Some (receiveChange ch (SetLiveDataFrequency frequency p))).
Proof.
  rewrite SetLiveDataFrequency_closed_form. simpl.
  split; [done|]. split; [done|]. split; [done|].
  split; [by rewrite length_map|]. split.
  - eexists. split; [reflexivity|]. split.
    + by rewrite length_imap.
    + intros i line Hline. rewrite list_lookup_imap in Hline.
      destruct (changeChans (configManager p) !! i) as [[|]|]; simpl in Hline;
        injection Hline as <- || discriminate; auto.
  - intros ch Hch. unfold receiveChange. simpl.
    rewrite all_true_lookup by done. by eexists.
Qed.

Lemma SetLiveDataFrequency_fanout_witness :
  is_Some
    (receiveChange 1
       (SetLiveDataFrequency 30
          (withConfigManager
             {| config := {| LiveDataFrequency := 15 |};
                changeChans := [false; true] |} initialProc))).
Proof.
  apply (SetLiveDataFrequency_fanout 30
           (withConfigManager
              {| config := {| LiveDataFrequency := 15 |};
                 changeChans := [false; true] |} initialProc)).
  simpl. lia.
Defined.

(** ** Signals are a wake-up, the value is read from the manager *)

Lemma receiveChange_occupied (ch : nat) (p : Proc) :
  changeChans (configManager p) !! ch = Some true ->
  receiveChange ch p
  = Some (withConfigManager
            {| config := config (configManager p);
               changeChans := <[ch := false]> (changeChans (configManager p)) |} p).
Proof. unfold receiveChange. by intros ->. Qed.

(** X2.  Dropped-notification resilience.  Let the interval be set twice
    while the fetcher is inside [fetchLiveData].  The second call finds
    the fetcher's slot occupied and logs the "Warning" line for it: that
    signal is dropped.  Whatever the fetch returns, the fetcher then
    re-arms its ticker with the second (latest) interval; the one
    buffered signal wakes it once more, which re-arms the same ticker,
    makes no fetch and empties the slot, so that no further wake-up
    follows. *)
Theorem latest_interval_wins
    (p : Proc) (g : Fetcher) (first second : Z)
    (data : LiveData) (err : option error) :
  fetching g = true ->
  (changeCh g < length (changeChans (configManager p)))%nat ->
  0 < minutes second ->
  (exists lines : list LogLine,
      logged (SetLiveDataFrequency second (SetLiveDataFrequency first p))
      = logged (SetLiveDataFrequency first p)
        ++ [Text "Set LiveDataFrequency to"; Int second] :: lines
      /\ lines !! changeCh g
         = Some (notifyLine (Z.of_nat (changeCh g)) true))
  /\ exists p1 p2 : Proc,
      fetcherStep (FetchReturns data err)
        (SetLiveDataFrequency second (SetLiveDataFrequency first p), g)
      = Ran (p1, {| frequency := second;
                    ticker := {| interval := minutes second; running := true |};
                    changeCh := changeCh g; fetching := false |})
      /\ fetcherStep FrequencyChanged
           (p1, {| frequency := second;
                   ticker := {| interval := minutes second; running := true |};
                   changeCh := changeCh g; fetching := false |})
         = Ran (p2, {| frequency := second;
                       ticker := {| interval := minutes second; running := true |};
                       changeCh := changeCh g; fetching := false |})
      /\ GetLiveDataFrequency p2 = second
      /\ liveFetches p2 = liveFetches p
      /\ latestLiveData p2 = latestLiveData p1
      /\ fetcherStep FrequencyChanged
           (p2, {| frequency := second;
                   ticker := {| interval := minutes second; running := true |};
                   changeCh := changeCh g; fetching := false |})
         = Blocked.
Proof.
  intros Hbusy Hch Hpos.
  set (q := SetLiveDataFrequency first p).
  set (p0 := SetLiveDataFrequency second q).
  assert (changeChans (configManager q)
          = map (fun _ => true) (changeChans (configManager p))) as Hq
    by (unfold q; by rewrite SetLiveDataFrequency_closed_form).
  assert (changeChans (configManager p0) !! changeCh g = Some true) as Hslot.
  { unfold p0. rewrite SetLiveDataFrequency_closed_form. simpl.
    apply all_true_lookup. by rewrite Hq, length_map. }
  assert (GetLiveDataFrequency p0 = second) as Hget by apply Get_Set.
  assert (liveFetches p0 = liveFetches p) as Hcount.
  { unfold p0, q. by rewrite !SetLiveDataFrequency_closed_form. }
  split.
  { unfold p0. rewrite SetLiveDataFrequency_closed_form. simpl.
    eexists. split; [reflexivity|].
    rewrite list_lookup_imap, Hq, all_true_lookup by done. done. }
  set (p1 := match err with
             | Some e => println [Text "Error fetching live data:"; Err e] p0
             | None =>
                 println [Text "Updated latestLiveData with TsharePricePulsechain:";
                          Float (TsharePricePulsechain data)]
                   (withLatestLiveData data p0)
             end).
  assert (GetLiveDataFrequency p1 = second
          /\ liveFetches p1 = liveFetches p
          /\ changeChans (configManager p1) !! changeCh g = Some true)
    as (Hget1 & Hcount1 & Hslot1)
    by (unfold p1; by destruct err).
  assert (fetcherStep (FetchReturns data err) (p0, g) = rearmFetcher p1 g)
    as Hstep
    by (unfold fetcherStep, p1; rewrite Hbusy; by destruct err).
  exists p1. eexists.
  split.
  { rewrite Hstep, rearmFetcher_positive by (by rewrite Hget1).
    by rewrite Hget1. }
  split.
  { unfold fetcherStep. cbn [fetching changeCh].
    rewrite (receiveChange_occupied _ _ Hslot1).
    rewrite rearmFetcher_positive; unfold GetLiveDataFrequency in *;
      cbn; by rewrite Hget1. }
  split; [exact Hget1|]. split; [exact Hcount1|]. split; [reflexivity|].
  unfold fetcherStep, receiveChange. cbn.
  rewrite list_lookup_insert_eq; [done|]. by apply lookup_lt_Some in Hslot1.
Qed.

Lemma latest_interval_wins_witness :
  exists p1 p2 : Proc,
    fetcherStep (FetchReturns zeroLiveData (Some "timeout"%string))
      (SetLiveDataFrequency 60
         (SetLiveDataFrequency 30
            (withConfigManager
               {| config := {| LiveDataFrequency := 15 |};
                  changeChans := [false] |} initialProc)),
       {| frequency := 15;
          ticker := {| interval := minutes 15; running := true |};
          changeCh := 0; fetching := true |})
    = Ran (p1, {| frequency := 60;
                  ticker := {| interval := minutes 60; running := true |};
                  changeCh := 0; fetching := false |})
    /\ fetcherStep FrequencyChanged
         (p1, {| frequency := 60;
                 ticker := {| interval := minutes 60; running := true |};
                 changeCh := 0; fetching := false |})
       = Ran (p2, {| frequency := 60;
                     ticker := {| interval := minutes 60; running := true |};
                     changeCh := 0; fetching := false |})
    /\ GetLiveDataFrequency p2 = 60.
Proof.
  destruct (latest_interval_wins
              (withConfigManager
                 {| config := {| LiveDataFrequency := 15 |};
                    changeChans := [false] |} initialProc)
              {| frequency := 15;
                 ticker := {| interval := minutes 15; running := true |};
                 changeCh := 0; fetching := true |}
              30 60 zeroLiveData (Some "timeout"%string)
              eq_refl (le_n 1) eq_refl)
    as (_ & p1 & p2 & Hret & Hwake & Hget & _).
  exists p1, p2. exact (conj Hret (conj Hwake Hget)).
Defined.

(** X3.  Subscriptions and changes in either order.  A subscription made
    before a change has a signal waiting after it; one made after a
    change starts with an empty slot (the change is not replayed), the
    interval it reads being the changed one already.  Subscribing adds
    one slot at the end and leaves the slots and the interval of the
    others as they were. *)
Theorem Subscribe_then_or_after_change (frequency : Z) (p : Proc) :
  fst (Subscribe p) = length (changeChans (configManager p))
  /\ changeChans (configManager (snd (Subscribe p)))
     = changeChans (configManager p) ++ [false]
  /\ GetLiveDataFrequency (snd (Subscribe p)) = GetLiveDataFrequency p
  /\ is_Some (receiveChange (fst (Subscribe p))
                (SetLiveDataFrequency frequency (snd (Subscribe p))))
  /\ receiveChange (fst (Subscribe (SetLiveDataFrequency frequency p)))
       (snd (Subscribe (SetLiveDataFrequency frequency p))) = None
  /\ GetLiveDataFrequency (snd (Subscribe (SetLiveDataFrequency frequency p)))
     = frequency.
Proof.
  split; [done|]. split; [done|]. split; [done|]. split; [|split].
  - rewrite receiveChange_occupied; [by eexists|].
    rewrite SetLiveDataFrequency_closed_form. simpl.
    apply all_true_lookup. rewrite length_app. simpl. lia.
  - unfold receiveChange, Subscribe. simpl.
    rewrite SetLiveDataFrequency_closed_form. simpl.
    rewrite lookup_app_r by done. by rewrite Nat.sub_diag.
  - apply Get_Set.
Qed.

(** ** From a fetch to the labels *)

(** X4.  One tick is one fetch, and a successful fetch is what the Live
    Data tab shows next.  A tick of the idle fetcher issues exactly one
    [fetchLiveData] call and leaves the cached snapshot in place while
    the call is under way; when the call returns a snapshot, the cache
    holds exactly that snapshot (configuration untouched, no further
    call counted), and the next tick of a running tab goroutine copies
    it into the labels. *)
Theorem fetched_snapshot_reaches_labels
    (p : Proc) (g : Fetcher) (t : Tab) (data : LiveData) :
  fetching g = false ->
  running (ticker g) = true ->
  returned t = false ->
  running (tabTicker t) = true ->
  0 < minutes (GetLiveDataFrequency p) ->
  exists (p1 p2 : Proc) (g1 g2 : Fetcher) (t' : Tab),
    fetcherStep TickerFires (p, g) = Ran (p1, g1)
    /\ liveFetches p1 = S (liveFetches p)
    /\ latestLiveData p1 = latestLiveData p
    /\ fetcherStep (FetchReturns data None) (p1, g1) = Ran (p2, g2)
    /\ latestLiveData p2 = data
    /\ configManager p2 = configManager p
    /\ liveFetches p2 = S (liveFetches p)
    /\ tabStep TabTickerFires (p2, t) = Ran (p2, t')
    /\ labels t' = data.
Proof.
  intros Hidle Hrun Harmed Htab Hpos.
  eexists _, _, _, _, _.
  split.
  { unfold fetcherStep. rewrite Hidle, Hrun. reflexivity. }
  split; [reflexivity|]. split; [reflexivity|].
  split.
  { unfold fetcherStep. cbn [fetching].
    rewrite rearmFetcher_positive by exact Hpos. reflexivity. }
  split; [reflexivity|]. split; [reflexivity|]. split; [reflexivity|].
  split.
  { unfold tabStep. rewrite Harmed, Htab. unfold rearmTab, Reset.
    change (GetLiveDataFrequency (println _ (withLatestLiveData data (countFetch p))))
      with (GetLiveDataFrequency p).
    destruct (Z.leb_spec (minutes (GetLiveDataFrequency p)) 0); [lia|].
    reflexivity. }
  reflexivity.
Qed.

Lemma fetched_snapshot_reaches_labels_witness :
  exists (p1 p2 : Proc) (g1 g2 : Fetcher) (t' : Tab),
    fetcherStep TickerFires
      (initialProc,
       {| frequency := 15; ticker := {| interval := minutes 15; running := true |};
          changeCh := 0; fetching := false |}) = Ran (p1, g1)
    /\ fetcherStep
         (FetchReturns
            {| PricePulsechain := 0%float; TsharePricePulsechain := 0%float;
               TshareRateHEXPulsechain := 0%float; PenaltiesHEXPulsechain := 0%float;
               PayoutPerTsharePulsechain := 0%float; Beat := 7 |} None)
         (p1, g1) = Ran (p2, g2)
    /\ tabStep TabTickerFires
         (p2, {| tabFrequency := 15;
                 tabTicker := {| interval := minutes 15; running := true |};
                 tabChangeCh := 1; cancelled := false; returned := false;
                 labels := zeroLiveData |}) = Ran (p2, t')
    /\ Beat (labels t') = 7.
Proof.
  destruct (fetched_snapshot_reaches_labels initialProc
              {| frequency := 15;
                 ticker := {| interval := minutes 15; running := true |};
                 changeCh := 0; fetching := false |}
              {| tabFrequency := 15;
                 tabTicker := {| interval := minutes 15; running := true |};
                 tabChangeCh := 1; cancelled := false; returned := false;
                 labels := zeroLiveData |}
              {| PricePulsechain := 0%float; TsharePricePulsechain := 0%float;
                 TshareRateHEXPulsechain := 0%float; PenaltiesHEXPulsechain := 0%float;
                 PayoutPerTsharePulsechain := 0%float; Beat := 7 |}
              eq_refl eq_refl eq_refl eq_refl eq_refl)
    as (p1 & p2 & g1 & g2 & t' & H1 & _ & _ & H2 & _ & _ & _ & H3 & H4).
  exists p1, p2, g1, g2, t'.
  split; [exact H1|]. split; [exact H2|]. split; [exact H3|].
  by rewrite H4.
Defined.

(** ** Saving a frequency *)

Lemma updateLocalHEXJSON_configFile (w : Env) :
  configFile (after updateLocalHEXJSON w) = configFile w
  /\ diskFault (after updateLocalHEXJSON w) = diskFault w.
Proof.
  unfold after.
  destruct (update_cases w)
    as [[err Hupd]
       |[(_ & Hupd & _)|(first & others & e & newer & _ & _ & _ & Hupd)]];
    rewrite Hupd; [done| |]; unfold saveLocalHEXJSON;
    destruct (diskFault w) as [[?|?]|] eqn:Hdisk; simpl; by rewrite ?Hdisk.
Qed.

Lemma startup_frequency (w : Env) (response : LiveData * option error) :
  GetLiveDataFrequency (snd (startup w response))
  = match snd (result loadConfig w) with
    | Some _ => defaultLiveDataFrequency
    | None => LiveDataFrequency (fst (result loadConfig w))
    end.
Proof.
  unfold startup, mainUpdateHistory.
  pose proof (updateLocalHEXJSON_configFile w) as [Hcfg _].
  unfold after in Hcfg.
  destruct (updateLocalHEXJSON w) as [err w1]. simpl in Hcfg.
  assert (forall q, GetLiveDataFrequency (snd (mainLoadConfig (w1, q)))
                    = match snd (result loadConfig w) with
                      | Some _ => defaultLiveDataFrequency
                      | None => LiveDataFrequency (fst (result loadConfig w))
                      end) as Hmain.
  { intros q. unfold mainLoadConfig, result, loadConfig. rewrite Hcfg.
    destruct (configFile w) as [|e|e|c]; simpl; by rewrite Get_Set. }
  destruct err as [err|].
  - specialize (Hmain (println [Text "Error updating local HEXJSON:"; Err err]
                         initialProc)).
    destruct (mainLoadConfig _) as [w2 p2]. simpl in *.
    unfold mainInitialFetch. by destruct response as [data [e|]].
  - specialize (Hmain initialProc).
    destruct (mainLoadConfig _) as [w2 p2]. simpl in *.
    unfold mainInitialFetch. by destruct response as [data [e|]].
Qed.



(** X6.  The handler changes nothing it should not.  If the text does not
    parse, or parses to a value that is not positive, the handler leaves
    disk and process exactly as they were.  If the disk refuses the
    write, the configuration manager is untouched (same interval, no
    subscriber signalled) and the cached snapshot too: the running
    interval changes only together with a successful write. *)
Theorem saveFrequencyTapped_rejects (text : string) (w : Env) (p : Proc) :
  (snd (Atoi text) <> None \/ fst (Atoi text) <= 0 ->
   saveFrequencyTapped text (w, p) = (w, p))
  /\ (diskFault w <> None ->
      configManager (snd (saveFrequencyTapped text (w, p))) = configManager p
      /\ latestLiveData (snd (saveFrequencyTapped text (w, p))) = latestLiveData p)
  /\ (configManager (snd (saveFrequencyTapped text (w, p))) <> configManager p ->
      exists f : Z,
        Atoi text = (f, None) /\ 0 < f
        /\ configFile (fst (saveFrequencyTapped text (w, p)))
           = Holding {| LiveDataFrequency := f |}).
Proof.
  unfold saveFrequencyTapped.
  destruct (Atoi text) as [f err]. simpl.
  destruct err as [e|]; simpl.
  { split; [done|]. split; [done|]. done. }
  destruct (Z.leb_spec f 0) as [Hle|Hgt]; simpl.
  { split; [done|]. split; [done|]. done. }
  split; [intros [?|?]; [done|lia]|].
  unfold saveConfig.
  destruct (diskFault w) as [[e|e]|]; simpl.
  - split; [done|]. done.
  - split; [done|]. done.
  - split; [done|]. intros _. by exists f.
Qed.

Lemma saveFrequencyTapped_rejects_witness :
  saveFrequencyTapped "0" coldStart = coldStart
  /\ saveFrequencyTapped "ten" coldStart = coldStart.
Proof.
  split.
  - apply (proj1 (saveFrequencyTapped_rejects "0" (fst coldStart) (snd coldStart))).
    right. vm_compute. discriminate.
  - apply (proj1 (saveFrequencyTapped_rejects "ten" (fst coldStart) (snd coldStart))).
    left. vm_compute. discriminate.
Defined.

(** ** The range of intervals the tickers can take *)

Lemma minutes_exact (f : Z) :
  -153722867 <= f <= 153722867 -> minutes f = f * Minute.
Proof.
  intros Hf. unfold minutes, wrap64, Minute.
  change (2 ^ 63) with 9223372036854775808.
  change (2 ^ 64) with 18446744073709551616.
  rewrite Z.mod_small by lia. lia.
Qed.

Lemma minutes_wrapped (f : Z) :
  153722868 <= f <= 307445734 ->
  minutes f = f * Minute - 18446744073709551616 /\ minutes f < 0.
Proof.
  intros Hf. unfold minutes, wrap64, Minute.
  change (2 ^ 63) with 9223372036854775808.
  change (2 ^ 64) with 18446744073709551616.
  assert ((f * 60000000000 + 9223372036854775808) mod 18446744073709551616
          = f * 60000000000 + 9223372036854775808 - 18446744073709551616) as ->.
  { symmetry. apply (Z.mod_unique_pos _ _ 1); lia. }
  lia.
Qed.

(** X7.  Intervals from 1 to 153,722,867 minutes are safe.  For a
    configured interval in that range the multiplication by
    [time.Minute] does not wrap: a starting fetcher or tab goroutine
    gets a running ticker of exactly that many minutes, and re-arming
    yields that ticker too; none of them panics. *)
Theorem tickers_arm_exactly (p : Proc) (g : Fetcher) (t : Tab) :
  1 <= GetLiveDataFrequency p <= 153722867 ->
  (exists (p' : Proc) (g' : Fetcher),
      startFetcher p = Ran (p', g')
      /\ ticker g' = {| interval := GetLiveDataFrequency p * 60000000000;
                        running := true |})
  /\ (exists (p' : Proc) (t' : Tab),
        startTab p = Ran (p', t')
        /\ tabTicker t' = {| interval := GetLiveDataFrequency p * 60000000000;
                             running := true |})
  /\ (exists g' : Fetcher,
        rearmFetcher p g = Ran (p, g')
        /\ ticker g' = {| interval := GetLiveDataFrequency p * 60000000000;
                          running := true |})
  /\ (forall shown : LiveData,
        exists t' : Tab,
          rearmTab p shown t = Ran (p, t')
          /\ tabTicker t' = {| interval := GetLiveDataFrequency p * 60000000000;
                               running := true |}).
Proof.
  intros Hrange.
  assert (minutes (GetLiveDataFrequency p)
          = GetLiveDataFrequency p * 60000000000) as Hmin
    by (apply minutes_exact; lia).
  assert (0 < minutes (GetLiveDataFrequency p)) as Hpos by lia.
  split; [|split; [|split]].
  - unfold startFetcher, NewTicker.
    destruct (Z.leb_spec (minutes (GetLiveDataFrequency p)) 0); [lia|].
    eexists _, _. split; [reflexivity|]. simpl. by rewrite Hmin.
  - unfold startTab, NewTicker.
    destruct (Z.leb_spec (minutes (GetLiveDataFrequency p)) 0); [lia|].
    eexists _, _. split; [reflexivity|]. simpl. by rewrite Hmin.
  - rewrite rearmFetcher_positive by done.
    eexists. split; [reflexivity|]. simpl. by rewrite Hmin.
  - intros shown. unfold rearmTab, Reset.
    destruct (Z.leb_spec (minutes (GetLiveDataFrequency p)) 0); [lia|].
    eexists. split; [reflexivity|]. simpl. by rewrite Hmin.
Qed.

Lemma tickers_arm_exactly_witness :
  exists (p' : Proc) (g' : Fetcher),
    startFetcher (SetLiveDataFrequency 153722867 initialProc) = Ran (p', g')
    /\ ticker g' = {| interval := 153722867 * 60000000000; running := true |}.
Proof.
  destruct (tickers_arm_exactly (SetLiveDataFrequency 153722867 initialProc)
              {| frequency := 15;
                 ticker := {| interval := minutes 15; running := true |};
                 changeCh := 0; fetching := false |}
              {| tabFrequency := 15;
                 tabTicker := {| interval := minutes 15; running := true |};
                 tabChangeCh := 0; cancelled := false; returned := false;
                 labels := zeroLiveData |}) as [Hstart _].
  - vm_compute. split; discriminate.
  - exact Hstart.
Defined.

(** X8.  An accepted interval can stop the program.  The settings handler
    takes any positive integer; for one from 153,722,868 to 307,445,734
    minutes the write succeeds and the manager holds it, but the
    duration wraps to a negative number: the fetcher panics in
    [Ticker.Reset] as soon as it takes the change signal, and on every
    later start [NewTicker] panics in the fetcher goroutine, since the
    value is read back from the config file. *)
Theorem oversized_interval_panics
    (text : string) (f : Z) (w : Env) (p : Proc) :
  Atoi text = (f, None) ->
  153722868 <= f <= 307445734 ->
  diskFault w = None ->
  configFile (fst (saveFrequencyTapped text (w, p)))
  = Holding {| LiveDataFrequency := f |}
  /\ GetLiveDataFrequency (snd (saveFrequencyTapped text (w, p))) = f
  /\ (forall g : Fetcher,
        fetching g = false ->
        (changeCh g < length (changeChans (configManager p)))%nat ->
        fetcherStep FrequencyChanged (snd (saveFrequencyTapped text (w, p)), g)
        = Panics "non-positive interval for Ticker.Reset")
  /\ (forall response : LiveData * option error,
        startFetcher
          (snd (startup (fst (saveFrequencyTapped text (w, p))) response))
        = Panics "non-positive interval for NewTicker").
Proof.
  intros Hparse Hrange Hdisk.
  destruct (minutes_wrapped f Hrange) as [_ Hneg].
  assert (saveFrequencyTapped text (w, p)
          = (setConfigFile (Holding {| LiveDataFrequency := f |}) configPath w,
             SetLiveDataFrequency f p)) as Hsave.
  { unfold saveFrequencyTapped. rewrite Hparse. simpl.
    destruct (Z.leb_spec f 0); [lia|]. simpl.
    unfold saveConfig. by rewrite Hdisk. }
  rewrite Hsave. simpl.
  split; [done|]. split; [apply Get_Set|]. split.
  - intros g Hidle Hch.
    unfold fetcherStep. rewrite Hidle.
    rewrite receiveChange_occupied.
    2:{ rewrite SetLiveDataFrequency_closed_form. simpl.
        by apply all_true_lookup. }
    unfold rearmFetcher, Reset.
    change (GetLiveDataFrequency (println _ (withConfigManager _ _)))
      with (GetLiveDataFrequency (SetLiveDataFrequency f p)).
    rewrite Get_Set.
    by destruct (Z.leb_spec (minutes f) 0); [|lia].
  - intros response. unfold startFetcher, NewTicker.
    rewrite startup_frequency.
    assert (result loadConfig
              (setConfigFile (Holding {| LiveDataFrequency := f |}) configPath w)
            = ({| LiveDataFrequency := f |}, None)) as ->.
    { unfold result, loadConfig. simpl.
      by destruct (Z.leb_spec f 0); [lia|]. }
    simpl.
    by destruct (Z.leb_spec (minutes f) 0); [|lia].
Qed.

Lemma oversized_interval_panics_witness :
  startFetcher
    (snd (startup (fst (saveFrequencyTapped "153722868" coldStart))
                  (zeroLiveData, None)))
  = Panics "non-positive interval for NewTicker".
Proof.
  apply (proj2 (proj2 (proj2
           (oversized_interval_panics "153722868" 153722868
              (fst coldStart) (snd coldStart)
              ltac:(vm_compute; reflexivity)
              ltac:(lia)
              eq_refl)))).
Defined.

(** ** Failures of the refresh *)

(** X9.  A refresh that reports an error has changed nothing, unless the
    encoder failed after the file was truncated: an error from loading
    or from fetching is returned as it is, a refusal of [os.Create] is
    returned, and in each case the world after the call is the world
    before it.  [main] logs the error once and goes on with the process
    state otherwise untouched. *)
Theorem refresh_error_changes_nothing (w : Env) (p : Proc) (e : error) :
  result updateLocalHEXJSON w = Some e ->
  (forall e' : error, diskFault w <> Some (EncodeFails e')) ->
  after updateLocalHEXJSON w = w
  /\ mainUpdateHistory (w, p)
     = (w, println [Text "Error updating local HEXJSON:"; Err e] p)
  /\ (forall e0 : error,
        snd (result loadLocalHEXJSON w) = Some e0 -> e = e0)
  /\ (forall e0 : error,
        snd (result loadLocalHEXJSON w) = None ->
        snd (fulldata w) = Some e0 -> e = e0).
Proof.
  intros Herr Hdisk.
  assert (updateLocalHEXJSON w = (Some e, w)) as Hupd.
  { unfold result in Herr.
    destruct (update_cases w)
      as [[err Hupd]
         |[(_ & Hupd & _)|(first & others & e1 & newer & _ & _ & _ & Hupd)]].
    - rewrite Hupd in Herr |- *. simpl in Herr. by subst.
    - rewrite Hupd in Herr |- *. unfold saveLocalHEXJSON in *.
      destruct (diskFault w) as [[e'|e']|]; simpl in *;
        [congruence|by destruct (Hdisk e')|done].
    - rewrite Hupd in Herr |- *. unfold saveLocalHEXJSON in *.
      destruct (diskFault w) as [[e'|e']|]; simpl in *;
        [congruence|by destruct (Hdisk e')|done]. }
  split; [unfold after; by rewrite Hupd|].
  split; [unfold mainUpdateHistory; by rewrite Hupd|].
  split.
  - intros e0 Hload.
    rewrite (update_load_error w e0 Hload) in Hupd. congruence.
  - intros e0 Hload Hfetch.
    destruct (result loadLocalHEXJSON w) as [localData err] eqn:Hl.
    simpl in Hload. subst err.
    destruct (fulldata w) as [junk err] eqn:Hf. simpl in Hfetch. subst err.
    rewrite (update_fetch_error w localData junk e0 Hl Hf) in Hupd. congruence.
Qed.

Lemma refresh_error_changes_nothing_witness :
  after updateLocalHEXJSON
    (historyEnv (Garbled "invalid character") (map entryOn [3; 2; 1]))
  = historyEnv (Garbled "invalid character") (map entryOn [3; 2; 1]).
Proof.
  apply (proj1 (refresh_error_changes_nothing
                  (historyEnv (Garbled "invalid character") (map entryOn [3; 2; 1]))
                  initialProc "invalid character" eq_refl
                  ltac:(discriminate))).
Defined.

(** X10.  The history is append-only.  Whatever the refresh does (nothing,
    a bootstrap, an incremental write, a failed load or fetch, a refused
    [os.Create]), the history persisted afterwards ends with the history
    persisted before; only an encoder failure after truncation loses
    it. *)
Theorem refresh_only_prepends (w : Env) :
  (forall e' : error, diskFault w <> Some (EncodeFails e')) ->
  exists added : HEXJSON,
    persisted (after updateLocalHEXJSON w) = added ++ persisted w.
Proof.
  intros Hdisk.
  destruct (update_cases w)
    as [[err Hupd]
       |[(Hload & Hupd & _)|(first & others & e1 & newer & Hload & _ & _ & Hupd)]];
    unfold after; rewrite Hupd.
  - by exists [].
  - fold (after (saveLocalHEXJSON (fst (result fetchHEXJSON w))) w).
    rewrite persisted_after_save.
    assert (persisted w = []) as Hp by (unfold persisted; by rewrite Hload).
    destruct (diskFault w) as [[e'|e']|].
    + by exists [].
    + by destruct (Hdisk e').
    + exists (fst (result fetchHEXJSON w)). by rewrite Hp, app_nil_r.
  - fold (after (saveLocalHEXJSON ((e1 :: newer) ++ first :: others)) w).
    rewrite persisted_after_save.
    assert (persisted w = first :: others) as Hp
      by (unfold persisted; by rewrite Hload).
    destruct (diskFault w) as [[e'|e']|].
    + by exists [].
    + by destruct (Hdisk e').
    + exists (e1 :: newer). by rewrite Hp.
Qed.

Lemma refresh_only_prepends_witness :
  exists added : HEXJSON,
    persisted (after updateLocalHEXJSON specExampleEnv)
    = added ++ persisted specExampleEnv.
Proof.
  apply (refresh_only_prepends specExampleEnv). discriminate.
Defined.
(** ** Miners *)

Lemma collectCompleted_filter (miners acc : list Miner) :
  collectCompleted miners acc = acc ++ List.filter isCompleted miners.
Proof.
  revert acc. induction miners as [|m rest IH]; intros acc; simpl.
  - by rewrite app_nil_r.
  - rewrite IH. destruct (isCompleted m); [|done].
    by rewrite <- app_assoc.
Qed.

Lemma encodable_app (l k : list Miner) :
  encodable (l ++ k) = encodable l && encodable k.
Proof. unfold encodable. apply forallb_app. Qed.



Lemma encodable_delete (miners : list Miner) (idx : nat) :
  encodable miners = true ->
  encodable (take idx miners ++ drop (S idx) miners) = true.
Proof.
  unfold encodable. rewrite !forallb_forall. intros Hall x Hx.
  apply Hall. apply in_app_or in Hx as [Hx|Hx].
  - apply list_elem_of_In. apply list_elem_of_In in Hx.
    eapply elem_of_sublist; [exact Hx|apply sublist_take].
  - apply list_elem_of_In. apply list_elem_of_In in Hx.
    eapply elem_of_sublist; [exact Hx|apply sublist_drop].
Qed.

Lemma unsupportedValue_encodable (miners : list Miner) :
  encodable miners = true -> unsupportedValue miners = None.
Proof.
  unfold encodable, unsupportedValue.
  induction miners as [|m rest IH]; simpl; [done|].
  intros [Hm Hrest]%andb_true_iff. rewrite Hm. simpl. auto.
Qed.

Lemma unsupportedValue_last (miners : list Miner) (m : Miner) :
  encodable miners = true ->
  PrimFloat.is_finite (TShares m) = false ->
  unsupportedValue (miners ++ [m])
  = Some ("json: unsupported value: " ++ formatSpecial (TShares m))%string.
Proof.
  unfold encodable, unsupportedValue. intros Hall Hm.
  induction miners as [|m0 rest IH]; simpl.
  - by rewrite Hm.
  - simpl in Hall. apply andb_true_iff in Hall as [Hm0 Hrest].
    rewrite Hm0. simpl. auto.
Qed.

Lemma unsupportedValue_not_encodable (miners : list Miner) :
  encodable miners = false -> is_Some (unsupportedValue miners).
Proof.
  unfold encodable, unsupportedValue.
  induction miners as [|m rest IH]; simpl; [done|].
  destruct (PrimFloat.is_finite (TShares m)); simpl; [auto|by eexists].
Qed.

Lemma saveAndLog_ok (miners : list Miner) (d : MinerDisk) (p : Proc) :
  minersFault d = None -> encodable miners = true ->
  saveAndLog miners (d, p)
  = (withMinersFile (Holding (jsonMiner <$> miners)) d, p).
Proof.
  intros Hdisk Henc. unfold saveAndLog, saveMiners.
  by rewrite Hdisk, unsupportedValue_encodable.
Qed.

Lemma saveAndLog_refused (miners : list Miner) (d : MinerDisk) (p : Proc)
    (e : error) :
  minersFault d = Some (CreateFails e) ->
  saveAndLog miners (d, p)
  = (d, println [Text "Error saving miners:"; Err e] p).
Proof. intros Hdisk. unfold saveAndLog, saveMiners. by rewrite Hdisk. Qed.

Lemma saveAndLog_unsupported (miners : list Miner) (d : MinerDisk) (p : Proc)
    (e : error) :
  minersFault d = None -> unsupportedValue miners = Some e ->
  saveAndLog miners (d, p)
  = (withMinersFile (Garbled "EOF") d,
     println [Text "Error saving miners:"; Err e] p).
Proof.
  intros Hdisk Hbad. unfold saveAndLog, saveMiners. by rewrite Hdisk, Hbad.
Qed.

Lemma refreshTabs_Holding (shown : list Miner) (d : MinerDisk) (p : Proc) :
  refreshTabs (withMinersFile (Holding shown) d, p)
  = ({| shownMiners := shown;
        spawned := createProfileTab shown ++ createLiveDataTab |},
     (withMinersFile (Holding shown) d, println [Text "Refreshing tabs"] p)).
Proof. reflexivity. Qed.

Lemma createProfileTab_nonempty (miners : list Miner) :
  (0 < length miners)%nat ->
  createProfileTab miners ++ createLiveDataTab = [ProfileTicker; LiveDataTicker].
Proof. unfold createProfileTab. by destruct miners; [simpl; lia|]. Qed.



(** *** Text through the encoder *)

















(** X13.  Deleting a miner.  Confirming Delete on miner [idx] (disk in
    order, finite values) stores, and shows after the refresh, the list
    with exactly that miner taken out: it is one shorter, the miners
    before [idx] stay where they are and those behind move up by one,
    each as it comes back from the file.  The handler logs "Refreshing
    tabs" and nothing else; it starts the ticker goroutine of the Live
    Data tab, and that of the Profile tab unless the last miner was
    deleted.  When [os.Create] is refused the file is unchanged: the
    failure is logged, and the refresh shows what the file held
    before. *)
Theorem deleteConfirmed_removes_one
    (idx : nat) (localMiners : list Miner) (d : MinerDisk) (p : Proc) :
  (idx < length localMiners)%nat ->
  encodable localMiners = true ->
  (minersFault d = None ->
   exists shown : list Miner,
     deleteConfirmed idx localMiners (d, p)
     = Ran ({| shownMiners := shown;
               spawned := if decide (length localMiners = 1%nat)
                          then [LiveDataTicker]
                          else [ProfileTicker; LiveDataTicker] |},
            (withMinersFile (Holding shown) d,
             println [Text "Refreshing tabs"] p))
     /\ S (length shown) = length localMiners
     /\ (forall j : nat,
           (j < idx)%nat -> shown !! j = jsonMiner <$> localMiners !! j)
     /\ (forall j : nat,
           (idx <= j)%nat -> shown !! j = jsonMiner <$> localMiners !! S j))
  /\ (forall e : error,
        minersFault d = Some (CreateFails e) ->
        deleteConfirmed idx localMiners (d, p)
        = Ran ({| shownMiners := fst (loadMiners d);
                  spawned := createProfileTab (fst (loadMiners d))
                             ++ createLiveDataTab |},
               (d, println [Text "Refreshing tabs"]
                     (println [Text "Error saving miners:"; Err e] p)))).
Proof.
  intros Hidx Henc.
  assert ((idx <? length localMiners)%nat = true) as Hlt
    by by apply Nat.ltb_lt.
  split.
  - intros Hdisk.
    exists (jsonMiner <$> delete idx localMiners).
    assert (S (length (jsonMiner <$> delete idx localMiners))
            = length localMiners) as Hlen.
    { rewrite length_fmap, length_delete; [lia|].
      by apply lookup_lt_is_Some_2. }
    split; [|split; [|split]].
    + unfold deleteConfirmed. rewrite Hlt.
      rewrite saveAndLog_ok by (done || by apply encodable_delete).
      rewrite <- delete_take_drop, refreshTabs_Holding.
      do 3 f_equal. unfold createProfileTab.
      destruct (decide (length localMiners = 1%nat)) as [Hone|Hmore].
      * rewrite Hone in Hlen. injection Hlen as ->. done.
      * destruct (jsonMiner <$> delete idx localMiners); [simpl in Hlen; lia|done].
    + exact Hlen.
    + intros j Hj. by rewrite list_lookup_fmap, list_lookup_delete_lt.
    + intros j Hj. by rewrite list_lookup_fmap, list_lookup_delete_ge.
  - intros e Hdisk. unfold deleteConfirmed. rewrite Hlt.
    by rewrite (saveAndLog_refused _ _ _ e).
Qed.

Lemma deleteConfirmed_removes_one_witness :
  exists shown : list Miner,
    deleteConfirmed 0
      [{| StartDate := "01-02-2020"; EndDate := "01-02-2024";
          TShares := 2.5%float; Status := "completed" |};
       {| StartDate := "03-04-2021"; EndDate := "03-04-2031";
          TShares := 1%float; Status := "" |}]
      ({| minersFile := Missing; minersFault := None |}, initialProc)
    = Ran ({| shownMiners := shown;
              spawned := [ProfileTicker; LiveDataTicker] |},
           (withMinersFile (Holding shown)
              {| minersFile := Missing; minersFault := None |},
            println [Text "Refreshing tabs"] initialProc))
    /\ S (length shown) = 2%nat.
Proof.
  destruct (proj1 (deleteConfirmed_removes_one 0
              [{| StartDate := "01-02-2020"; EndDate := "01-02-2024";
                  TShares := 2.5%float; Status := "completed" |};
               {| StartDate := "03-04-2021"; EndDate := "03-04-2031";
                  TShares := 1%float; Status := "" |}]
              {| minersFile := Missing; minersFault := None |} initialProc
              (le_S _ _ (le_n 1)) eq_refl) eq_refl)
    as (shown & Hdel & Hlen & _).
  exists shown. exact (conj Hdel Hlen).
Defined.

Section AddMinerFacts.
Variable timeParse : string -> option error.
Variable ParseFloat : string -> float64 * option error.

Lemma addMinerTapped_passes_checks
    (startDate endDate text : string) (v : float64)
    (localMiners : list Miner) (st : MinerDisk * Proc) :
  startDate <> ""%string -> endDate <> ""%string ->
  timeParse startDate = None -> timeParse endDate = None ->
  text <> ""%string ->
  ParseFloat text = (v, None) ->
  (v <=? 0)%float = false ->
  addMinerTapped timeParse ParseFloat startDate endDate text localMiners st
  = (Refreshed
       (fst (refreshTabs
               (saveAndLog
                  (localMiners ++ [{| StartDate := startDate; EndDate := endDate;
                                      TShares := v; Status := "" |}]) st))),
     snd (refreshTabs
            (saveAndLog
               (localMiners ++ [{| StartDate := startDate; EndDate := endDate;
                                   TShares := v; Status := "" |}]) st))).
Proof.
  intros Hs He Hps Hpe Ht Hpf Hpos.
  unfold addMinerTapped, tSharesValidator.
  apply String.eqb_neq in Hs, He, Ht.
  rewrite Hs, He, Ht, Hps, Hpe, Hpf, Hpos. simpl.
  by destruct (refreshTabs _).
Qed.

(** X14.  Adding a miner.  Whenever the handler shows an error dialog it
    has changed nothing and logged nothing.  When both dates are present
    and parse, and the T-Shares text parses to a finite number above
    zero (disk in order, finite values so far), no dialog is shown; the
    file holds, and the refreshed tabs show, the old miners followed by
    exactly one new miner with the entered fields and an empty status,
    each as it comes back from the file, so that the completed ones are
    those of before; the handler logs "Refreshing tabs" and nothing
    else and starts the ticker goroutines of the Profile and the Live
    Data tab. *)
Theorem addMinerTapped_appends_one
    (startDate endDate text : string) (v : float64)
    (localMiners : list Miner) (d : MinerDisk) (p : Proc) :
  (forall msg : error,
      fst (addMinerTapped timeParse ParseFloat startDate endDate text
             localMiners (d, p)) = ShowError msg ->
      snd (addMinerTapped timeParse ParseFloat startDate endDate text
             localMiners (d, p)) = (d, p))
  /\ (startDate <> ""%string -> endDate <> ""%string ->
      timeParse startDate = None -> timeParse endDate = None ->
      text <> ""%string ->
      ParseFloat text = (v, None) ->
      (v <=? 0)%float = false ->
      PrimFloat.is_finite v = true ->
      encodable localMiners = true ->
      minersFault d = None ->
      addMinerTapped timeParse ParseFloat startDate endDate text localMiners (d, p)
      = (Refreshed
           {| shownMiners :=
                (jsonMiner <$> localMiners)
                ++ [{| StartDate := jsonText startDate;
                       EndDate := jsonText endDate;
                       TShares := v; Status := "" |}];
              spawned := [ProfileTicker; LiveDataTicker] |},
         (withMinersFile
            (Holding ((jsonMiner <$> localMiners)
                      ++ [{| StartDate := jsonText startDate;
                             EndDate := jsonText endDate;
                             TShares := v; Status := "" |}])) d,
          println [Text "Refreshing tabs"] p))
      /\ collectCompleted
           ((jsonMiner <$> localMiners)
            ++ [{| StartDate := jsonText startDate; EndDate := jsonText endDate;
                   TShares := v; Status := "" |}]) []
         = collectCompleted (jsonMiner <$> localMiners) []).
Proof.
  split.
  - intros msg. unfold addMinerTapped.
    destruct (String.eqb startDate ""); [done|].
    destruct (String.eqb endDate ""); [done|].
    destruct (bool_decide (timeParse startDate <> None)); [done|].
    destruct (bool_decide (timeParse endDate <> None)); [done|].
    destruct (String.eqb text ""); [done|].
    destruct (tSharesValidator ParseFloat text); [done|].
    destruct (ParseFloat text) as [tShares [err|]]; [done|].
    destruct (refreshTabs _). simpl. discriminate.
  - intros Hs He Hps Hpe Ht Hpf Hpos Hfin Henc Hdisk.
    rewrite (addMinerTapped_passes_checks _ _ _ v) by done.
    split.
    + rewrite saveAndLog_ok; [|done|].
      * rewrite refreshTabs_Holding, fmap_app. simpl.
        rewrite createProfileTab_nonempty; [done|].
        rewrite length_app. simpl. lia.
      * rewrite encodable_app, Henc. unfold encodable. simpl. by rewrite Hfin.
    + rewrite !collectCompleted_filter. simpl.
      rewrite List.filter_app. simpl. by rewrite app_nil_r.
Qed.

(** X15.  A T-Shares value that is not a number wipes the miners.  If the
    text parses to NaN or to an infinity that is not [<= 0] (the
    validator lets both through), the handler shows no error dialog;
    the save fails in the encoder after the file has been truncated;
    the failure is logged, followed by "Refreshing tabs"; the refresh
    finds a file it cannot decode, so that no miner is shown, whatever
    was stored before, and only the Live Data tab gets its ticker
    goroutine.  With finite values so far, the error logged is that of
    the value entered. *)
Theorem addMinerTapped_not_a_number
    (startDate endDate text : string) (v : float64)
    (localMiners : list Miner) (d : MinerDisk) (p : Proc) :
  startDate <> ""%string -> endDate <> ""%string ->
  timeParse startDate = None -> timeParse endDate = None ->
  text <> ""%string ->
  ParseFloat text = (v, None) ->
  (v <=? 0)%float = false ->
  PrimFloat.is_finite v = false ->
  minersFault d = None ->
  exists e : error,
    addMinerTapped timeParse ParseFloat startDate endDate text localMiners (d, p)
    = (Refreshed {| shownMiners := []; spawned := [LiveDataTicker] |},
       (withMinersFile (Garbled "EOF") d,
        println [Text "Refreshing tabs"]
          (println [Text "Error saving miners:"; Err e] p)))
    /\ loadMiners (withMinersFile (Garbled "EOF") d) = ([], Some "EOF"%string)
    /\ (encodable localMiners = true ->
        e = ("json: unsupported value: " ++ formatSpecial v)%string).
Proof.
  intros Hs He Hps Hpe Ht Hpf Hpos Hfin Hdisk.
  rewrite (addMinerTapped_passes_checks _ _ _ v) by done.
  destruct (unsupportedValue_not_encodable
              (localMiners ++ [{| StartDate := startDate; EndDate := endDate;
                                  TShares := v; Status := "" |}])) as [e Hbad].
  { rewrite encodable_app. unfold encodable at 2. simpl. rewrite Hfin.
    by rewrite andb_false_r. }
  exists e. split; [|split].
  - by rewrite (saveAndLog_unsupported _ _ _ e).
  - done.
  - intros Henc. rewrite unsupportedValue_last in Hbad by done.
    by injection Hbad as <-.
Qed.
End AddMinerFacts.

Lemma addMinerTapped_appends_one_witness :
  addMinerTapped (fun _ => None) (fun _ => (2.5%float, None))
    "01-02-2024" "01-02-2030" "2.5" []
    ({| minersFile := Missing; minersFault := None |}, initialProc)
  = (Refreshed
       {| shownMiners :=
            [{| StartDate := "01-02-2024"; EndDate := "01-02-2030";
                TShares := 2.5%float; Status := "" |}];
          spawned := [ProfileTicker; LiveDataTicker] |},
     (withMinersFile
        (Holding [{| StartDate := "01-02-2024"; EndDate := "01-02-2030";
                     TShares := 2.5%float; Status := "" |}])
        {| minersFile := Missing; minersFault := None |},
      println [Text "Refreshing tabs"] initialProc)).
Proof.
  apply (proj1 (proj2 (addMinerTapped_appends_one (fun _ => None)
                  (fun _ => (2.5%float, None))
                  "01-02-2024" "01-02-2030" "2.5" 2.5%float []
                  {| minersFile := Missing; minersFault := None |} initialProc)
                ltac:(discriminate) ltac:(discriminate) eq_refl eq_refl
                ltac:(discriminate) eq_refl eq_refl eq_refl eq_refl eq_refl)).
Defined.

Lemma addMinerTapped_not_a_number_witness :
  addMinerTapped (fun _ => None) (fun _ => (PrimFloat.nan, None))
    "01-02-2024" "01-02-2030" "NaN"
    [{| StartDate := "01-02-2020"; EndDate := "01-02-2024";
        TShares := 2.5%float; Status := "" |}]
    ({| minersFile :=
          Holding [{| StartDate := "01-02-2020"; EndDate := "01-02-2024";
                      TShares := 2.5%float; Status := "" |}];
        minersFault := None |}, initialProc)
  = (Refreshed {| shownMiners := []; spawned := [LiveDataTicker] |},
     ({| minersFile := Garbled "EOF"; minersFault := None |},
      println [Text "Refreshing tabs"]
        (println [Text "Error saving miners:";
                  Err "json: unsupported value: NaN"] initialProc))).
Proof.
  destruct (addMinerTapped_not_a_number (fun _ => None)
              (fun _ => (PrimFloat.nan, None))
              "01-02-2024" "01-02-2030" "NaN" PrimFloat.nan
              [{| StartDate := "01-02-2020"; EndDate := "01-02-2024";
                  TShares := 2.5%float; Status := "" |}]
              {| minersFile :=
                   Holding [{| StartDate := "01-02-2020";
                               EndDate := "01-02-2024";
                               TShares := 2.5%float; Status := "" |}];
                 minersFault := None |} initialProc
              ltac:(discriminate) ltac:(discriminate) eq_refl eq_refl
              ltac:(discriminate) eq_refl eq_refl eq_refl eq_refl)
    as (e & Hadd & _ & Htext).
  rewrite (Htext eq_refl) in Hadd. exact Hadd.
Defined.

(** ** The completed miners window *)

Lemma addLabels_take (completed : list Miner) (steps : nat) (i : Z)
    (box : list Miner) :
  0 <= i ->
  (Z.to_nat i + steps <= length completed)%nat ->
  addLabels completed i steps box
  = Ran (box ++ take steps (drop (Z.to_nat i) completed)).
Proof.
  revert i box. induction steps as [|steps IH]; intros i box Hi Hlen.
  - simpl. by rewrite app_nil_r.
  - cbn [addLabels].
    destruct (Z.ltb_spec i 0) as [?|_]; [lia|].
    destruct (lookup_lt_is_Some_2 completed (Z.to_nat i)) as [m Hm]; [lia|].
    rewrite Hm. rewrite IH by lia.
    rewrite (drop_S _ _ _ Hm). simpl.
    replace (Z.to_nat (i + 1)) with (S (Z.to_nat i)) by lia.
    by rewrite <- app_assoc.
Qed.

Lemma updateMiners_shows (pg : Pager) :
  1 <= currentPage pg ->
  (currentPage pg - 1) * 10 < Z.of_nat (length (completedMiners pg)) ->
  updateMiners pg
  = Ran {| completedMiners := completedMiners pg; totalPages := totalPages pg;
           currentPage := currentPage pg;
           minersBox :=
             take 10 (drop (Z.to_nat ((currentPage pg - 1) * 10))
                           (completedMiners pg));
           pageLabel := (currentPage pg, totalPages pg);
           previousEnabled := previousEnabled pg;
           nextEnabled := nextEnabled pg |}.
Proof.
  intros Hpage Hstart. unfold updateMiners, itemsPerPage.
  set (start := (currentPage pg - 1) * 10) in *.
  destruct (Z.ltb_spec (Z.of_nat (length (completedMiners pg))) (start + 10))
    as [Hshort|Hfull].
  - rewrite addLabels_take by lia. rewrite app_nil_l. do 2 f_equal.
    rewrite !take_ge; [done| |]; rewrite length_drop; lia.
  - rewrite addLabels_take by lia. rewrite app_nil_l. do 3 f_equal. lia.
Qed.

Lemma pagerInOrder_start (pg : Pager) :
  pagerInOrder pg ->
  (currentPage pg - 1) * 10 < Z.of_nat (length (completedMiners pg)).
Proof.
  intros (_ & Htotal & Hpage & _).
  pose proof (Z.mul_div_le (Z.of_nat (length (completedMiners pg)) + 9) 10).
  lia.
Qed.

Lemma totalPages_positive (completed : list Miner) :
  completed <> [] -> 1 <= (Z.of_nat (length completed) + 9) / 10.
Proof.
  intros Hne. destruct completed as [|m rest]; [done|].
  apply Z.div_le_lower_bound; simpl length; lia.
Qed.

Ltac pager_simpl :=
  cbn [currentPage totalPages completedMiners minersBox pageLabel
       previousEnabled nextEnabled setPrevious setNext withCurrentPage].

Ltac ltb_cases :=
  repeat match goal with
         | |- context [(?x <? ?y)] => destruct (Z.ltb_spec x y)
         end;
  try done; try lia.

Ltac pager_close :=
  try done; try lia;
  repeat match goal with
         | H : _ = (_ <? _) |- _ => rewrite H
         end;
  ltb_cases.

Lemma viewCompleted_in_order (miners : list Miner) :
  (List.filter isCompleted miners = [] -> viewCompleted miners = Ran None)
  /\ (List.filter isCompleted miners <> [] ->
      exists pg : Pager,
        viewCompleted miners = Ran (Some pg)
        /\ pagerInOrder pg
        /\ completedMiners pg = List.filter isCompleted miners
        /\ currentPage pg = 1).
Proof.
  revert miners.
  intros miners. unfold viewCompleted.
  rewrite collectCompleted_filter. rewrite app_nil_l.
  set (completed := List.filter isCompleted miners).
  split.
  + by intros ->.
  + intros Hne.
    destruct (Nat.eqb_spec (length completed) 0) as [Hz|_].
    { by destruct completed. }
    pose proof (totalPages_positive completed Hne) as Htotal.
    assert ((Z.of_nat (length completed) + itemsPerPage - 1) ÷ itemsPerPage
            = (Z.of_nat (length completed) + 9) / 10) as ->.
    { unfold itemsPerPage. rewrite Z.quot_div_nonneg by lia. f_equal. lia. }
    rewrite updateMiners_shows; pager_simpl;
      [|lia|destruct completed; simpl length; [done|lia]].
    rewrite Z.eqb_refl. pager_simpl.
    destruct (Z.eqb_spec 1 ((Z.of_nat (length completed) + 9) / 10))
      as [Hone|Hmore]; pager_simpl;
      eexists; (split; [reflexivity|]);
      (split; [|split; reflexivity]); unfold pagerInOrder; pager_simpl;
      repeat split; pager_close.
Qed.

Lemma previousTapped_in_order (pg : Pager) :
  pagerInOrder pg ->
  exists pg' : Pager,
    previousTapped pg = Ran pg'
    /\ pagerInOrder pg'
    /\ completedMiners pg' = completedMiners pg
    /\ currentPage pg' = Z.max 1 (currentPage pg - 1).
Proof.
  revert pg.
  intros pg Hok.
  pose proof Hok as (Hne & Htotal & Hpage & Hbox & Hlabel & Hprev & Hnext).
  unfold previousTapped.
  destruct (Z.ltb_spec 1 (currentPage pg)) as [Hgt|Hle].
  + rewrite updateMiners_shows; pager_simpl; [| lia | ].
    2:{ pose proof (pagerInOrder_start pg Hok). lia. }
    destruct (Z.eqb_spec (currentPage pg - 1) 1) as [Hone|Hmore]; pager_simpl;
      (destruct (Z.ltb_spec (currentPage pg - 1) (totalPages pg)); [|lia]);
      pager_simpl;
      eexists; (split; [reflexivity|]);
      (split; [|split; [reflexivity|pager_simpl; lia]]);
      unfold pagerInOrder; pager_simpl; repeat split; pager_close.
  + exists pg. split; [done|]. split; [exact Hok|]. split; [done|lia].
Qed.

Lemma nextTapped_in_order (pg : Pager) :
  pagerInOrder pg ->
  exists pg' : Pager,
    nextTapped pg = Ran pg'
    /\ pagerInOrder pg'
    /\ completedMiners pg' = completedMiners pg
    /\ currentPage pg' = Z.min (totalPages pg) (currentPage pg + 1).
Proof.
  revert pg.
  intros pg Hok.
  pose proof Hok as (Hne & Htotal & Hpage & Hbox & Hlabel & Hprev & Hnext).
  unfold nextTapped.
  destruct (Z.ltb_spec (currentPage pg) (totalPages pg)) as [Hlt|Hge].
  + rewrite updateMiners_shows; pager_simpl; [| lia | ].
    2:{ pose proof (Z.mul_div_le (Z.of_nat (length (completedMiners pg)) + 9) 10).
        lia. }
    destruct (Z.eqb_spec (currentPage pg + 1) (totalPages pg)) as [Hlast|Hmore];
      pager_simpl;
      (destruct (Z.ltb_spec 1 (currentPage pg + 1)); [|lia]);
      pager_simpl;
      eexists; (split; [reflexivity|]);
      (split; [|split; [reflexivity|pager_simpl; lia]]);
      unfold pagerInOrder; pager_simpl; repeat split; pager_close.
  + exists pg. split; [done|]. split; [exact Hok|]. split; [done|lia].
Qed.

(** X16.  The pager stays in order.  Opening the window on a list with
    completed miners gives a pager on page 1 over exactly the completed
    ones; without any it gives the empty window.  From a pager in order,
    "Previous" and "Next" never index out of range and lead to a pager
    in order again, one page back or forth and never past the first or
    the last page: the box shows that page's slice, the label agrees
    and each button is enabled exactly when a page lies in its
    direction.  A page in order shows between one and ten miners. *)
Theorem pager_stays_in_order :
  (forall miners : list Miner,
      (List.filter isCompleted miners = [] -> viewCompleted miners = Ran None)
      /\ (List.filter isCompleted miners <> [] ->
          exists pg : Pager,
            viewCompleted miners = Ran (Some pg)
            /\ pagerInOrder pg
            /\ completedMiners pg = List.filter isCompleted miners
            /\ currentPage pg = 1))
  /\ (forall pg : Pager,
        pagerInOrder pg ->
        exists pg' : Pager,
          previousTapped pg = Ran pg'
          /\ pagerInOrder pg'
          /\ completedMiners pg' = completedMiners pg
          /\ currentPage pg' = Z.max 1 (currentPage pg - 1))
  /\ (forall pg : Pager,
        pagerInOrder pg ->
        exists pg' : Pager,
          nextTapped pg = Ran pg'
          /\ pagerInOrder pg'
          /\ completedMiners pg' = completedMiners pg
          /\ currentPage pg' = Z.min (totalPages pg) (currentPage pg + 1))
  /\ (forall pg : Pager,
        pagerInOrder pg ->
        minersBox pg <> [] /\ (length (minersBox pg) <= 10)%nat).
Proof.
  split; [exact viewCompleted_in_order|].
  split; [exact previousTapped_in_order|].
  split; [exact nextTapped_in_order|].
  intros pg Hok. pose proof (pagerInOrder_start pg Hok) as Hstart.
  destruct Hok as (Hne & Htotal & Hpage & Hbox & _).
  rewrite Hbox. split.
  + intros Hnil. apply (f_equal length) in Hnil.
    rewrite length_take, length_drop in Hnil. cbn [length] in Hnil. lia.
  + rewrite length_take. lia.
Qed.

Lemma pager_stays_in_order_witness :
  exists pg : Pager,
    viewCompleted
      [{| StartDate := "01-02-2020"; EndDate := "01-02-2024";
          TShares := 2.5%float; Status := "completed" |}]
    = Ran (Some pg)
    /\ pagerInOrder pg
    /\ currentPage pg = 1.
Proof.
  destruct (proj2 (proj1 pager_stays_in_order
              [{| StartDate := "01-02-2020"; EndDate := "01-02-2024";
                  TShares := 2.5%float; Status := "completed" |}])
              ltac:(discriminate))
    as (pg & Hview & Hok & _ & Hpage).
  exists pg. exact (conj Hview (conj Hok Hpage)).
Defined.

Lemma nextTaps_advance (n : nat) (pg : Pager) :
  pagerInOrder pg ->
  currentPage pg + Z.of_nat n <= totalPages pg ->
  exists pg' : Pager,
    nextTaps n pg = Ran pg'
    /\ pagerInOrder pg'
    /\ completedMiners pg' = completedMiners pg
    /\ currentPage pg' = currentPage pg + Z.of_nat n.
Proof.
  revert pg. induction n as [|n IH]; intros pg Hok Hroom.
  - exists pg. split; [done|]. split; [done|]. split; [done|lia].
  - cbn [nextTaps].
    destruct (nextTapped_in_order pg Hok) as (pg1 & -> & Hok1 & Hsame & Hpage).
    assert (totalPages pg1 = totalPages pg) as Htotal.
    { destruct Hok as (_ & -> & _), Hok1 as (_ & -> & _). by rewrite Hsame. }
    destruct (IH pg1 Hok1) as (pg' & Hrun & Hok' & Hsame' & Hpage'); [lia|].
    exists pg'. split; [done|]. split; [done|]. split; [congruence|]. lia.
Qed.

(** X17.  Every completed miner can be reached.  The miner at position
    [i] among the completed ones is shown after [i / 10] taps on "Next"
    from the freshly opened window: the pager is then on page
    [i / 10 + 1] and the miner is the label number [i mod 10] of the
    box, and no tap on the way indexes out of range. *)
Theorem every_completed_miner_is_shown
    (miners : list Miner) (i : nat) (m : Miner) :
  List.filter isCompleted miners !! i = Some m ->
  exists pg0 pg : Pager,
    viewCompleted miners = Ran (Some pg0)
    /\ nextTaps (i / 10) pg0 = Ran pg
    /\ currentPage pg = Z.of_nat (i / 10) + 1
    /\ minersBox pg !! (i mod 10)%nat = Some m.
Proof.
  intros Hm.
  assert (i < length (List.filter isCompleted miners))%nat as Hlt
    by by eapply lookup_lt_Some.
  destruct (proj2 (viewCompleted_in_order miners)) as (pg0 & Hview & Hok0 & Hc0 & Hp0).
  { intros Hnil. rewrite Hnil in Hlt. simpl in Hlt. lia. }
  pose proof (Nat.div_mod_eq i 10) as Hdm.
  pose proof (Nat.mod_upper_bound i 10 ltac:(lia)) as Hmod.
  destruct (nextTaps_advance (i / 10) pg0 Hok0) as (pg & Hrun & Hok & Hc & Hp).
  { destruct Hok0 as (_ & -> & _). rewrite Hp0, Hc0.
    apply Z.div_le_lower_bound; lia. }
  exists pg0, pg. split; [done|]. split; [done|]. split; [lia|].
  destruct Hok as (_ & _ & _ & -> & _).
  rewrite lookup_take_lt by done. rewrite lookup_drop.
  rewrite Hc, Hc0, Hp, Hp0.
  replace (Z.to_nat ((1 + Z.of_nat (i / 10) - 1) * 10) + i mod 10)%nat with i by lia.
  done.
Qed.

Lemma every_completed_miner_is_shown_witness :
  exists pg0 pg : Pager,
    viewCompleted
      (repeat {| StartDate := "01-02-2020"; EndDate := "01-02-2024";
                 TShares := 1%float; Status := "completed" |} 11
       ++ [{| StartDate := "05-06-2021"; EndDate := "05-06-2023";
              TShares := 3%float; Status := "completed" |}])
    = Ran (Some pg0)
    /\ nextTaps 1 pg0 = Ran pg
    /\ currentPage pg = 2
    /\ minersBox pg !! 1%nat
       = Some {| StartDate := "05-06-2021"; EndDate := "05-06-2023";
                 TShares := 3%float; Status := "completed" |}.
Proof.
  exact (every_completed_miner_is_shown
           (repeat {| StartDate := "01-02-2020"; EndDate := "01-02-2024";
                      TShares := 1%float; Status := "completed" |} 11
            ++ [{| StartDate := "05-06-2021"; EndDate := "05-06-2023";
                   TShares := 3%float; Status := "completed" |}])
           11
           {| StartDate := "05-06-2021"; EndDate := "05-06-2023";
              TShares := 3%float; Status := "completed" |}
           eq_refl).
Defined.

(** ** Number formatting *)

Lemma rem3_of_length (l : list ascii) :
  (Z.rem (Z.of_nat (length l)) 3 =? 0) = (length l mod 3 =? 0)%nat.
Proof.
  rewrite Z.rem_mod_nonneg by lia.
  change 3 with (Z.of_nat 3). rewrite <- Nat2Z.inj_mod.
  destruct (Nat.eqb_spec (length l mod 3) 0) as [->|Hne]; [done|].
  apply Z.eqb_neq. lia.
Qed.

Lemma length_list_ascii_of_string (s : string) :
  length (list_ascii_of_string s) = String.length s.
Proof. induction s; simpl; congruence. Qed.

Lemma insertCommas_punctuate (n : Z) (rest : list ascii) (prev : ascii)
    (i : Z) (result : list ascii) :
  0 <= i ->
  n = i + 1 + Z.of_nat (length rest) ->
  insertCommas n (i + 1) rest (result ++ [prev])
  = result ++ punctuate (prev :: rest).
Proof.
  revert prev i result. induction rest as [|ch rest IH]; intros prev i result Hi Hn.
  - done.
  - cbn [insertCommas].
    destruct (Z.ltb_spec 0 (i + 1)) as [_|?]; [|lia]. cbn [andb].
    replace (n - (i + 1)) with (Z.of_nat (length (ch :: rest))) by lia.
    rewrite rem3_of_length.
    cbn [punctuate]. cbn [length]. 
    assert ((0 <? S (length rest))%nat = true) as -> by (apply Nat.ltb_lt; lia).
    cbn [andb].
    destruct (S (length rest) mod 3 =? 0)%nat.
    + rewrite <- (app_assoc result [prev] [","%char]).
      change ([prev] ++ [","%char]) with [prev; ","%char].
      rewrite (IH ch (i + 1) (result ++ [prev; ","%char])) by (simpl length in Hn; lia).
      by rewrite <- app_assoc.
    + rewrite (IH ch (i + 1) (result ++ [prev])) by (simpl length in Hn; lia).
      by rewrite <- app_assoc.
Qed.

Lemma punctuate_short (bytes : list ascii) :
  (length bytes <= 3)%nat -> punctuate bytes = bytes.
Proof.
  destruct bytes as [|a [|b [|c [|d rest]]]]; simpl; try done. lia.
Qed.

Lemma stripCommas_punctuate (bytes : list ascii) :
  stripCommas (punctuate bytes) = stripCommas bytes.
Proof.
  induction bytes as [|ch rest IH]; [done|].
  cbn [punctuate].
  destruct ((0 <? length rest)%nat && (length rest mod 3 =? 0)%nat);
    unfold stripCommas in *; simpl; rewrite IH; done.
Qed.

Lemma string_of_uint_no_comma (d : Decimal.uint) :
  stripCommas (list_ascii_of_string (NilZero.string_of_uint d))
  = list_ascii_of_string (NilZero.string_of_uint d).
Proof.
  unfold NilZero.string_of_uint.
  destruct d; try reflexivity; simpl;
    unfold stripCommas; simpl; f_equal;
    match goal with
    | |- context [NilEmpty.string_of_uint ?u] =>
        induction u; simpl; try reflexivity; f_equal; assumption
    end.
Qed.

Lemma Itoa_no_comma (num : Z) :
  stripCommas (list_ascii_of_string (Itoa num)) = list_ascii_of_string (Itoa num).
Proof.
  unfold Itoa, NilZero.string_of_int.
  destruct (Z.to_int num) as [d|d].
  - apply string_of_uint_no_comma.
  - cbn [list_ascii_of_string]. unfold stripCommas. simpl. f_equal.
    apply string_of_uint_no_comma.
Qed.

Lemma formatWithCommas_closed_form (num : Z) :
  list_ascii_of_string (formatWithCommas num)
  = punctuate (list_ascii_of_string (Itoa num)).
Proof.
  unfold formatWithCommas.
  assert (String.length (Itoa num)
          = length (list_ascii_of_string (Itoa num))) as Hlen.
  { generalize (Itoa num). intros s. induction s; simpl; congruence. }
  destruct (Z.leb_spec (Z.of_nat (String.length (Itoa num))) 3) as [Hshort|Hlong].
  - rewrite punctuate_short; [done|lia].
  - rewrite list_ascii_of_string_of_list_ascii.
    rewrite Hlen in *.
    destruct (list_ascii_of_string (Itoa num)) as [|ch rest]; [simpl in *; lia|].
    cbn [insertCommas]. cbn [andb Z.ltb Z.compare].
    change ([] ++ [ch]) with (([] : list ascii) ++ [ch]).
    rewrite (insertCommas_punctuate _ rest ch 0 []); [done|lia|].
    simpl length. lia.
Qed.

(** X18.  Where the commas go.  [formatWithCommas] returns the decimal
    text of the number with a comma after every character that is
    followed by a positive multiple of three characters, and nothing
    else is added, dropped or reordered: with the commas taken out
    again the result is the decimal text. *)
Theorem formatWithCommas_punctuates (num : Z) :
  list_ascii_of_string (formatWithCommas num)
  = punctuate (list_ascii_of_string (Itoa num))
  /\ stripCommas (list_ascii_of_string (formatWithCommas num))
     = list_ascii_of_string (Itoa num)
  /\ formatLongWithCommas num = formatWithCommas num.
Proof.
  pose proof (formatWithCommas_closed_form num) as Hfmt.
  split; [exact Hfmt|]. split; [|done].
  rewrite Hfmt, stripCommas_punctuate. apply Itoa_no_comma.
Qed.

(** X19.  A minus sign counts as a character.  For a negative number
    whose digits number a multiple of three (from -100 to -999, from
    -100000 to -999999, ...), the text returned by [formatWithCommas]
    begins with the minus sign followed at once by a comma, as in
    "-,123". *)
Theorem formatWithCommas_negative (num : Z) :
  num < 0 ->
  (3 < String.length (Itoa num))%nat ->
  ((String.length (Itoa num) - 1) mod 3 = 0)%nat ->
  exists tail : string,
    formatWithCommas num = String "-" (String "," tail).
Proof.
  intros Hneg Hlen Hmod.
  assert (exists digits, Itoa num = String "-" digits) as [digits Hitoa].
  { unfold Itoa, NilZero.string_of_int. destruct num as [|q|q]; try lia.
    simpl. eauto. }
  pose proof (formatWithCommas_closed_form num) as Hfmt.
  rewrite Hitoa in Hfmt, Hlen, Hmod.
  cbn [String.length] in Hlen, Hmod.
  replace (S (String.length digits) - 1)%nat with (String.length digits)
    in Hmod by lia.
  cbn [list_ascii_of_string punctuate] in Hfmt.
  rewrite length_list_ascii_of_string in Hfmt.
  assert ((0 <? String.length digits)%nat = true) as H0
    by (apply Nat.ltb_lt; lia).
  rewrite H0, Hmod in Hfmt. cbn [andb Nat.eqb] in Hfmt.
  exists (string_of_list_ascii (punctuate (list_ascii_of_string digits))).
  rewrite <- (string_of_list_ascii_of_string (formatWithCommas num)).
  by rewrite Hfmt.
Qed.

Lemma formatWithCommas_negative_witness :
  exists tail : string, formatWithCommas (-123) = String "-" (String "," tail).
Proof.
  apply (formatWithCommas_negative (-123)).
  - lia.
  - vm_compute. lia.
  - reflexivity.
Defined.

(** ** What the process starts with *)

Lemma mainLoadConfig_frame (st : Env * Proc) :
  latestLiveData (snd (mainLoadConfig st)) = latestLiveData (snd st)
  /\ liveFetches (snd (mainLoadConfig st)) = liveFetches (snd st)
  /\ changeChans (configManager (snd (mainLoadConfig st)))
     = map (fun _ => true) (changeChans (configManager (snd st))).
Proof.
  destruct st as [w p]. unfold mainLoadConfig.
  destruct (loadConfig w) as [[c [err|]] w']; simpl;
    by rewrite SetLiveDataFrequency_closed_form.
Qed.

(** X20.  The first picture.  After the start-up sequence exactly one
    [fetchLiveData] call has been made and nobody is subscribed yet; the
    cached snapshot is the fetched one, or the zero snapshot when the
    initial fetch failed, and this is also what the labels of a Live
    Data tab started then show, however the history refresh and the
    config file turned out. *)
Theorem startup_snapshot (w : Env) (response : LiveData * option error) :
  liveFetches (snd (startup w response)) = 1%nat
  /\ changeChans (configManager (snd (startup w response))) = []
  /\ latestLiveData (snd (startup w response))
     = match response with
       | (_, Some _) => zeroLiveData
       | (data, None) => data
       end
  /\ (forall (p' : Proc) (t : Tab),
        startTab (snd (startup w response)) = Ran (p', t) ->
        labels t = latestLiveData (snd (startup w response))
        /\ tabChangeCh t = 0%nat
        /\ latestLiveData p' = latestLiveData (snd (startup w response))).
Proof.
  assert (latestLiveData (snd (mainUpdateHistory (w, initialProc))) = zeroLiveData
          /\ liveFetches (snd (mainUpdateHistory (w, initialProc))) = 0%nat
          /\ changeChans (configManager (snd (mainUpdateHistory (w, initialProc))))
             = []) as (Hd & Hf & Hc).
  { unfold mainUpdateHistory.
    by destruct (updateLocalHEXJSON w) as [[err|] w']. }
  pose proof (mainLoadConfig_frame (mainUpdateHistory (w, initialProc)))
    as (Hd' & Hf' & Hc').
  rewrite Hd in Hd'. rewrite Hf in Hf'. rewrite Hc in Hc'.
  unfold startup.
  destruct (mainLoadConfig (mainUpdateHistory (w, initialProc))) as [w2 p2].
  simpl in Hd', Hf', Hc'. simpl.
  assert (liveFetches (mainInitialFetch response p2) = 1%nat
          /\ changeChans (configManager (mainInitialFetch response p2)) = []
          /\ latestLiveData (mainInitialFetch response p2)
             = match response with
               | (_, Some _) => zeroLiveData
               | (data, None) => data
               end) as (H1 & H2 & H3).
  { unfold mainInitialFetch. destruct response as [data [err|]]; simpl;
      by rewrite ?Hf', ?Hc', ?Hd'. }
  split; [done|]. split; [done|]. split; [done|].
  intros p' t. unfold startTab.
  destruct (NewTicker _); intros [=]; subst; simpl.
  by rewrite H2.
Qed.

Lemma startup_snapshot_witness :
  exists (p' : Proc) (t : Tab),
    startTab (snd (startup (historyEnv Missing [])
                           (zeroLiveData, Some "timeout"%string))) = Ran (p', t)
    /\ labels t = zeroLiveData.
Proof.
  eexists _, _. split; [vm_compute; reflexivity|].
  pose proof (proj2 (proj2 (proj2
                (startup_snapshot (historyEnv Missing [])
                   (zeroLiveData, Some "timeout"%string))))) as Htab.
  edestruct Htab as (Hl & _); [vm_compute; reflexivity|].
  exact Hl.
Defined.
(** ** Goroutines started by a refresh *)

Lemma Subscribe_chans (p : Proc) :
  changeChans (configManager (snd (Subscribe p)))
  = changeChans (configManager p) ++ [false]
  /\ config (configManager (snd (Subscribe p))) = config (configManager p)
  /\ latestLiveData (snd (Subscribe p)) = latestLiveData p
  /\ liveFetches (snd (Subscribe p)) = liveFetches p.
Proof. done. Qed.

Lemma startSpawned_subscribes (g : TabGoroutine) (p : Proc) :
  0 < minutes (GetLiveDataFrequency p) ->
  exists q : Proc,
    startSpawned g p = Ran q
    /\ changeChans (configManager q) = changeChans (configManager p) ++ [false]
    /\ config (configManager q) = config (configManager p)
    /\ latestLiveData q = latestLiveData p
    /\ liveFetches q = liveFetches p
    /\ length (logged q) = (length (logged p) + 2)%nat.
Proof.
  intros Hpos.
  destruct g; unfold startSpawned, startProfileTicker, startTab, NewTicker;
    (destruct (Z.leb_spec (minutes (GetLiveDataFrequency p)) 0) as [Hle|_];
       [lia|]);
    eexists; (split; [reflexivity|]); simpl;
    rewrite ?length_app; simpl; repeat split; lia.
Qed.

Lemma startAll_subscribes (order : list TabGoroutine) :
  forall p : Proc,
    0 < minutes (GetLiveDataFrequency p) ->
    exists q : Proc,
      startAll order p = Ran q
      /\ changeChans (configManager q)
         = changeChans (configManager p) ++ replicate (length order) false
      /\ config (configManager q) = config (configManager p)
      /\ latestLiveData q = latestLiveData p
      /\ liveFetches q = liveFetches p
      /\ length (logged q) = (length (logged p) + 2 * length order)%nat.
Proof.
  induction order as [|g order IH]; intros p Hpos.
  - exists p. simpl. rewrite app_nil_r. repeat split; lia.
  - destruct (startSpawned_subscribes g p Hpos)
      as (q & Hq & Hchans & Hconfig & Hdata & Hcount & Hlog).
    destruct (IH q) as (q' & Hq' & Hchans' & Hconfig' & Hdata' & Hcount' & Hlog').
    { unfold GetLiveDataFrequency in *. by rewrite Hconfig. }
    exists q'. cbn [startAll]. rewrite Hq. split; [exact Hq'|].
    split.
    { rewrite Hchans', Hchans, <- app_assoc. reflexivity. }
    split; [congruence|]. split; [congruence|]. split; [congruence|].
    rewrite Hlog', Hlog. simpl. lia.
Qed.

(** X21.  Every refresh adds subscribers.  [refreshTabs] starts the Live
    Data ticker goroutine, and the Profile one exactly when the file
    holds at least one miner.  In whichever order the started
    goroutines take their first steps (with an interval that makes a
    positive duration), each of them appends one empty channel to the
    subscribers: the earlier subscribers all stay, with their slots as
    they were, so that the list grows by one or two with every refresh;
    the interval, the cached snapshot and the fetch count are unchanged,
    and the log gains "Refreshing tabs" and two lines per goroutine. *)
Theorem refreshTabs_adds_subscribers
    (d : MinerDisk) (p : Proc) (order : list TabGoroutine) :
  0 < minutes (GetLiveDataFrequency p) ->
  Permutation order (spawned (fst (refreshTabs (d, p)))) ->
  spawned (fst (refreshTabs (d, p)))
  = (if decide (fst (loadMiners d) = [])
     then [LiveDataTicker] else [ProfileTicker; LiveDataTicker])
  /\ exists q : Proc,
      startAll order (snd (snd (refreshTabs (d, p)))) = Ran q
      /\ changeChans (configManager q)
         = changeChans (configManager p) ++ replicate (length order) false
      /\ (1 <= length order <= 2)%nat
      /\ GetLiveDataFrequency q = GetLiveDataFrequency p
      /\ latestLiveData q = latestLiveData p
      /\ liveFetches q = liveFetches p
      /\ length (logged q) = (length (logged p) + 1 + 2 * length order)%nat.
Proof.
  intros Hpos Horder.
  assert (spawned (fst (refreshTabs (d, p)))
          = (if decide (fst (loadMiners d) = [])
             then [LiveDataTicker] else [ProfileTicker; LiveDataTicker]))
    as Hspawned.
  { simpl. unfold createProfileTab.
    destruct (decide (fst (loadMiners d) = [])) as [->|Hne]; [done|].
    by destruct (fst (loadMiners d)). }
  split; [exact Hspawned|].
  destruct (startAll_subscribes order (println [Text "Refreshing tabs"] p) Hpos)
    as (q & Hq & Hchans & Hconfig & Hdata & Hcount & Hlog).
  exists q. split; [exact Hq|]. split; [exact Hchans|].
  split.
  { apply Permutation_length in Horder. rewrite Horder, Hspawned.
    destruct (decide _); simpl; lia. }
  split; [unfold GetLiveDataFrequency; by rewrite Hconfig|].
  split; [exact Hdata|]. split; [exact Hcount|].
  rewrite Hlog. simpl. rewrite length_app. simpl. lia.
Qed.

Lemma refreshTabs_adds_subscribers_witness :
  exists q : Proc,
    startAll [LiveDataTicker; ProfileTicker]
      (println [Text "Refreshing tabs"] initialProc) = Ran q
    /\ changeChans (configManager q) = [false; false].
Proof.
  destruct (refreshTabs_adds_subscribers
              {| minersFile :=
                   Holding [{| StartDate := "01-02-2020"; EndDate := "01-02-2024";
                               TShares := 2.5%float; Status := "" |}];
                 minersFault := None |}
              initialProc [LiveDataTicker; ProfileTicker]
              eq_refl (Permutation_swap _ _ _))
    as (_ & q & Hq & Hchans & _).
  exists q. exact (conj Hq Hchans).
Defined.
